(** * paasta_tools/contrib/graceful_container_drain.py

    A shallow embedding of the drain-plan generator and the properties of
    its timeline.  Python [str] values are modelled as [string] (one [ascii]
    per code point, so the code points 0..255), Python [int] as [Z], the
    environment [dict] as a [gmap string string].  The results of the
    external commands ([cmd]), of [random.shuffle] and of the file system are
    inputs, gathered in a [world]. *)

From Stdlib Require Import ZArith Ascii String List Lia Bool Sorted DecimalString.
From stdpp Require Import base option list gmap strings.

Local Open Scope string_scope.
Local Open Scope list_scope.
Local Open Scope Z_scope.

(** ** Python string operations used by the script *)

Module PyStr.

Definition nl : ascii := Ascii.ascii_of_nat 10.
Definition eq_sign : ascii := Ascii.ascii_of_nat 61.

(** [len(s)] *)
Definition len (s : string) : Z := Z.of_nat (String.length s).

(** [sep in s], for a one-character [sep]. *)
Fixpoint contains (sep : ascii) (s : string) : bool :=
  match s with
  | EmptyString => false
  | String c s' => if Ascii.eqb c sep then true else contains sep s'
  end.

(** [s.split(sep, 1)] for a one-character [sep]: one piece when [sep] does
    not occur, two pieces cut at the first occurrence otherwise. *)
Fixpoint split1 (sep : ascii) (s : string) : list string :=
  match s with
  | EmptyString => [EmptyString]
  | String c s' =>
      if Ascii.eqb c sep then [EmptyString; s']
      else match split1 sep s' with
           | [k; v] => [String c k; v]
           | _ => [s]
           end
  end.

(** [s.split(sep)] for a one-character [sep]: never the empty list. *)
Fixpoint split (sep : ascii) (s : string) : list string :=
  match s with
  | EmptyString => [EmptyString]
  | String c s' =>
      if Ascii.eqb c sep then EmptyString :: split sep s'
      else match split sep s' with
           | h :: tl => String c h :: tl
           | [] => [String c EmptyString]
           end
  end.

(** [str.isspace] on one character, for the code points below 256. *)
Definition isspace (c : ascii) : bool :=
  let n := Z.of_nat (Ascii.nat_of_ascii c) in
  ((9 <=? n) && (n <=? 13)) || ((28 <=? n) && (n <=? 32))
  || (n =? 133) || (n =? 160).

(** [s.rstrip()] *)
Fixpoint rstrip (s : string) : string :=
  match s with
  | EmptyString => EmptyString
  | String c s' =>
      match rstrip s' with
      | EmptyString => if isspace c then EmptyString else String c EmptyString
      | r => String c r
      end
  end.

(** The characters [int] skips around a literal, for the code points below
    256: the ASCII white space, and the two characters above 127 that are
    white space.  The separators 28 to 31, which [str.isspace] accepts, are
    not skipped. *)
Definition int_isspace (c : ascii) : bool :=
  let n := Z.of_nat (Ascii.nat_of_ascii c) in
  ((9 <=? n) && (n <=? 13)) || (n =? 32) || (n =? 133) || (n =? 160).

Fixpoint int_rstrip (s : string) : string :=
  match s with
  | EmptyString => EmptyString
  | String c s' =>
      match int_rstrip s' with
      | EmptyString =>
          if int_isspace c then EmptyString else String c EmptyString
      | r => String c r
      end
  end.

Fixpoint int_lstrip (s : string) : string :=
  match s with
  | EmptyString => EmptyString
  | String c s' => if int_isspace c then int_lstrip s' else s
  end.

Definition digit_val (c : ascii) : option Z :=
  let n := Z.of_nat (Ascii.nat_of_ascii c) in
  if (48 <=? n) && (n <=? 57) then Some (n - 48) else None.

(** The digits of a decimal literal, where single underscores may separate
    digits.  [prev] tells whether the previous character was a digit. *)
Fixpoint digits (s : string) (acc : Z) (prev : bool) : option Z :=
  match s with
  | EmptyString => if prev then Some acc else None
  | String c s' =>
      match digit_val c with
      | Some d => digits s' (10 * acc + d) true
      | None =>
          if Ascii.eqb c (Ascii.ascii_of_nat 95) && prev
          then digits s' acc false
          else None
      end
  end.

(** The number of digits of a literal. *)
Fixpoint count_digits (s : string) : Z :=
  match s with
  | EmptyString => 0
  | String c s' =>
      match digit_val c with
      | Some _ => 1 + count_digits s'
      | None => count_digits s'
      end
  end.

(** [sys.int_info.default_max_str_digits]: a literal of more digits is
    refused. *)
Definition max_str_digits : Z := 4300.

(** A literal without sign. *)
Definition literal (s : string) : option Z :=
  if max_str_digits <? count_digits s then None else digits s 0 false.

(** [int(s)] in base 10; [None] is [ValueError]. *)
Definition int (s : string) : option Z :=
  match int_rstrip (int_lstrip s) with
  | String c r =>
      if Ascii.eqb c (Ascii.ascii_of_nat 43) then literal r
      else if Ascii.eqb c (Ascii.ascii_of_nat 45)
           then Z.opp <$> literal r
           else literal (String c r)
  | EmptyString => None
  end.

(** [str(n)] for an [int]. *)
Definition of_int (n : Z) : string :=
  DecimalString.NilZero.string_of_int (Z.to_int n).

End PyStr.

(** ** Exceptions and exits *)

Inductive exn : Type :=
| ValueError
| KeyError.

(** ** docker_env_to_dict *)

(** The tuple assignment [k, v = kv.split("=", 1)]. *)
Definition unpack2 (pieces : list string) : option (string * string) :=
  match pieces with
  | [k; v] => Some (k, v)
  | _ => None
  end.

Fixpoint docker_env_loop (environment_array : list string)
    (environment : gmap string string) : exn + gmap string string :=
  match environment_array with
  | [] => inr environment
  | kv :: rest =>
      match unpack2 (PyStr.split1 PyStr.eq_sign kv) with
      | Some (k, v) => docker_env_loop rest (<[k:=v]> environment)
      | None => inl ValueError
      end
  end.

Definition docker_env_to_dict (environment_array : list string)
    : exn + gmap string string :=
  docker_env_loop environment_array ∅.

(** ** Data *)

(** A value loaded from YAML, as far as the script looks at it. *)
Inductive py_value : Type :=
| PyNone
| PyInt (n : Z)
| PyStr (s : string).

(** One printed line.  [render] gives the text the script prints. *)
Inductive line : Type :=
| Text (message : string)
| Warning (container_id : string)
| Header (service instance : string)
| Info (container_id service instance : string) (proxy_port : py_value)
       (marathon_port : Z)
| Hadown (marathon_port expire : Z) (service instance : string)
| Sleep (seconds : Z)
| DockerKill (container_id : string)
| Haup (marathon_port : Z) (service instance : string)
| Blank.

Definition py_str (v : py_value) : string :=
  match v with
  | PyNone => "None"
  | PyInt n => PyStr.of_int n
  | PyStr s => s
  end.

Definition render (l : line) : string :=
  match l with
  | Text message => message
  | Warning container_id =>
      "# WARNING: " +:+ container_id +:+ " is not a paasta container, skipping)"
  | Header service instance => "# " +:+ service +:+ "." +:+ instance
  | Info container_id service instance proxy_port marathon_port =>
      "# " +:+ container_id +:+ "," +:+ service +:+ "," +:+ instance +:+ ","
      +:+ py_str proxy_port +:+ "," +:+ PyStr.of_int marathon_port
  | Hadown marathon_port expire service instance =>
      "sudo hadown -P " +:+ PyStr.of_int marathon_port
      +:+ " -e $((`date +'%s'`+" +:+ PyStr.of_int expire +:+ ")) "
      +:+ service +:+ "." +:+ instance
  | Sleep seconds => "sleep " +:+ PyStr.of_int seconds
  | DockerKill container_id => "sudo docker kill " +:+ container_id
  | Haup marathon_port service instance =>
      "sudo haup -P " +:+ PyStr.of_int marathon_port +:+ " "
      +:+ service +:+ "." +:+ instance
  | Blank => ""
  end.

(** What the script reads from outside: the result of [cmd] on the two
    docker commands (for [docker inspect], the return code and the decoded
    [docker_inspect_data[0]["Config"]["Env"]]), the permutation chosen by
    [random.shuffle], and the smartstack files by path (a file that exists
    is taken to hold a mapping from instance names to mappings).

    The worlds are those in which [json.loads] and the indexing of line 143
    give a list of strings, and [yaml.safe_load] gives such a mapping: an
    inspection output of another shape, and a smartstack file that is empty
    or holds another document, make the script raise ([TypeError],
    [KeyError], [IndexError], [AttributeError], a YAML error), and no run
    of the model stands for that. *)
Record world : Type := {
  docker_ps : Z * string;
  shuffle : list string -> list string;
  docker_inspect : string -> Z * list string;
  smartstack_files : string -> option (gmap string (gmap string py_value))
}.

(** The variables [main] updates in its loop, and what has been printed.
    Every printed line is stored with the value [t] had when it was
    printed: the timeline. *)
Record state : Type := {
  t : Z;
  drained_apps : list (Z * string * string);
  timeline : list (Z * line)
}.

Definition initial : state :=
  {| t := 0; drained_apps := []; timeline := [] |}.

(** The script's output, line by line. *)
Definition stdout (st : state) : list string :=
  map (fun e => render (snd e)) (timeline st).

(** ** A state and exit monad *)

Inductive stop : Type :=
| SysExit (code : Z)
| Uncaught (e : exn).

Definition M (A : Type) : Type := state -> state * (stop + A).

Definition ret {A} (a : A) : M A := fun st => (st, inr a).

Definition bind {A B} (m : M A) (k : A -> M B) : M B :=
  fun st =>
    match m st with
    | (st', inr a) => k a st'
    | (st', inl e) => (st', inl e)
    end.

Notation "x <- m ;; k" := (bind m (fun x => k))
  (at level 100, m at next level, right associativity).
Notation "m ;; k" := (bind m (fun _ => k))
  (at level 100, right associativity).

Definition sys_exit {A} (code : Z) : M A := fun st => (st, inl (SysExit code)).
Definition raise {A} (e : exn) : M A := fun st => (st, inl (Uncaught e)).

Definition print (l : line) : M unit :=
  fun st =>
    ({| t := t st; drained_apps := drained_apps st;
        timeline := timeline st ++ [(t st, l)] |}, inr tt).

Definition get_t : M Z := fun st => (st, inr (t st)).
Definition get_drained_apps : M (list (Z * string * string)) :=
  fun st => (st, inr (drained_apps st)).

(** [t += d] *)
Definition advance (d : Z) : M unit :=
  fun st =>
    ({| t := t st + d; drained_apps := drained_apps st;
        timeline := timeline st |}, inr tt).

(** [drained_apps.append(r)] *)
Definition drained_append (r : Z * string * string) : M unit :=
  fun st =>
    ({| t := t st; drained_apps := drained_apps st ++ [r];
        timeline := timeline st |}, inr tt).

Definition of_option {A} (e : exn) (o : option A) : M A :=
  match o with
  | Some a => ret a
  | None => raise e
  end.

Definition of_sum {A} (r : exn + A) : M A :=
  match r with
  | inr a => ret a
  | inl e => raise e
  end.

Fixpoint for_each {A} (l : list A) (body : A -> M unit) : M unit :=
  match l with
  | [] => ret tt
  | x :: rest => body x ;; for_each rest body
  end.

(** ** The script's functions *)

Definition abort {A} (message : string) : M A :=
  print (Text message) ;; sys_exit 1.

Definition condquit (rc : Z) (message : string) : M unit :=
  if negb (rc =? 0) then print (Text message) ;; sys_exit rc
  else ret tt.

Definition get_proxy_port (w : world) (service_name instance_name : string)
    : py_value :=
  let smartstack_yaml :=
    "/nail/etc/services/" +:+ service_name +:+ "/smartstack.yaml" in
  match smartstack_files w smartstack_yaml with
  | Some data =>
      match data !! instance_name with
      | Some entry => default PyNone (entry !! "proxy_port")
      | None => PyNone
      end
  | None => PyNone
  end.

(** The [for ... in reversed(drained_apps)] loop with its [break]. *)
Fixpoint look_back (reversed : list (Z * string * string))
    (service instance : string) (last_killed_t : Z) : Z :=
  match reversed with
  | [] => last_killed_t
  | (dt, dservice, dinstance) :: rest =>
      if String.eqb dservice service && String.eqb dinstance instance
      then dt
      else look_back rest service instance last_killed_t
  end.

Definition get_last_killed (drained_apps : list (Z * string * string))
    (service instance : string) : Z :=
  look_back (rev drained_apps) service instance (-1000).

Definition has_all_paasta_env (environment : gmap string string) : bool :=
  forallb (fun k => bool_decide (is_Some (environment !! k)))
          ["PAASTA_SERVICE"; "PAASTA_INSTANCE"; "MARATHON_PORT"].

Definition smartstack_grace_sleep : Z := 10.
Definition between_containers_grace_sleep : Z := 10.
Definition min_kill_interval : Z := 60.
Definition hadown_expire_in_seconds : Z := 120.

(** The first loop of [main]: every line must have 12 characters. *)
Fixpoint collect_ids (lines running_container_ids : list string)
    : M (list string) :=
  match lines with
  | [] => ret running_container_ids
  | line :: rest =>
      (if negb (PyStr.len line =? 12)
       then abort (line +:+ " doesn't look like a container ID")
       else ret tt) ;;
      collect_ids rest (running_container_ids ++ [PyStr.rstrip line])
  end.

(** The body of the second loop; [continue] ends the body. *)
Definition drain (w : world) (container_id : string) : M unit :=
  let '(rc, env_array) := docker_inspect w container_id in
  condquit rc ("docker inspect " +:+ container_id) ;;
  environment <- of_sum (docker_env_to_dict env_array) ;;
  if negb (has_all_paasta_env environment) then
    print (Warning container_id)
  else
    service <- of_option KeyError (environment !! "PAASTA_SERVICE") ;;
    instance <- of_option KeyError (environment !! "PAASTA_INSTANCE") ;;
    print (Header service instance) ;;
    port <- of_option KeyError (environment !! "MARATHON_PORT") ;;
    marathon_port <- of_option ValueError (PyStr.int port) ;;
    let proxy_port := get_proxy_port w service instance in
    print (Info container_id service instance proxy_port marathon_port) ;;
    print (Hadown marathon_port hadown_expire_in_seconds service instance) ;;
    print (Sleep smartstack_grace_sleep) ;;
    advance smartstack_grace_sleep ;;
    print (DockerKill container_id) ;;
    print (Haup marathon_port service instance) ;;
    drained <- get_drained_apps ;;
    let last_killed_t := get_last_killed drained service instance in
    now <- get_t ;;
    drained_append (now, service, instance) ;;
    let sleep_amount :=
      if now - last_killed_t <? min_kill_interval
      then min_kill_interval - (now - last_killed_t)
           + between_containers_grace_sleep
      else between_containers_grace_sleep in
    print (Sleep sleep_amount) ;;
    advance sleep_amount ;;
    print Blank.

Definition main (w : world) : M unit :=
  let '(rc, output) := docker_ps w in
  condquit rc "docker ps" ;;
  let lines := PyStr.split PyStr.nl output in
  (if Z.of_nat (length lines) =? 0 then abort "no containers running"
   else ret tt) ;;
  running_container_ids <- collect_ids lines [] ;;
  for_each (shuffle w running_container_ids) (drain w).

(** The run of the script: final state, and how it ended ([inr tt] is the
    normal end, exit status 0). *)
Definition run (w : world) : state * (stop + unit) := main w initial.

(** The status the operating system sees after [sys.exit(code)]. *)
Definition exit_status (code : Z) : Z := code mod 256.

(** ** Vocabulary of the specification *)

(** [st] after printing the lines [ls] (the clock does not move). *)
Definition emit (st : state) (ls : list line) : state :=
  {| t := t st; drained_apps := drained_apps st;
     timeline := timeline st ++ map (fun l => (t st, l)) ls |}.

(** The container is a paasta container that the loop body drains:
    inspection succeeds, the environment decodes, it names the service and
    the instance, and MARATHON_PORT is an integer literal. *)
Definition managed (w : world) (container_id service instance : string)
    (marathon_port : Z) : Prop :=
  fst (docker_inspect w container_id) = 0
  /\ exists environment port,
       docker_env_to_dict (snd (docker_inspect w container_id))
       = inr environment
       /\ environment !! "PAASTA_SERVICE" = Some service
       /\ environment !! "PAASTA_INSTANCE" = Some instance
       /\ environment !! "MARATHON_PORT" = Some port
       /\ PyStr.int port = Some marathon_port.

(** The container is inspected and decoded, and lacks one of the three
    variables. *)
Definition unmanaged (w : world) (container_id : string) : Prop :=
  fst (docker_inspect w container_id) = 0
  /\ exists environment,
       docker_env_to_dict (snd (docker_inspect w container_id))
       = inr environment
       /\ has_all_paasta_env environment = false.

(** The record [(dt, dservice, dinstance)] is about [(service, instance)]. *)
Definition about (service instance : string) (r : Z * string * string)
    : Prop :=
  r.1.2 = service /\ r.2 = instance.

Definition kill_time (st : state) : Z := t st + smartstack_grace_sleep.

(** The sleep that ends the cycle of a container of [(service, instance)]
    started in [st]. *)
Definition cycle_sleep (st : state) (service instance : string) : Z :=
  let gap :=
    kill_time st - get_last_killed (drained_apps st) service instance in
  if gap <? min_kill_interval
  then min_kill_interval - gap + between_containers_grace_sleep
  else between_containers_grace_sleep.

Definition cycle_lines (w : world) (container_id service instance : string)
    (marathon_port : Z) (st : state) : list (Z * line) :=
  [ (t st, Header service instance);
    (t st, Info container_id service instance
                (get_proxy_port w service instance) marathon_port);
    (t st, Hadown marathon_port hadown_expire_in_seconds service instance);
    (t st, Sleep smartstack_grace_sleep);
    (kill_time st, DockerKill container_id);
    (kill_time st, Haup marathon_port service instance);
    (kill_time st, Sleep (cycle_sleep st service instance));
    (kill_time st + cycle_sleep st service instance, Blank) ].

Definition after_cycle (w : world) (container_id service instance : string)
    (marathon_port : Z) (st : state) : state :=
  {| t := kill_time st + cycle_sleep st service instance;
     drained_apps := drained_apps st ++ [(kill_time st, service, instance)];
     timeline :=
       timeline st
       ++ cycle_lines w container_id service instance marathon_port st |}.

(** The second loop, as a relation: [plan w ids st added st' r] says that
    from [st] the loop over [ids] prints [added], and stops in [st'] with
    the result [r]. *)
Inductive plan (w : world)
    : list string -> state -> list (Z * line) -> state -> stop + unit -> Prop :=
| plan_end st :
    plan w [] st [] st (inr tt)
| plan_inspect_failed cid ids st :
    fst (docker_inspect w cid) <> 0 ->
    plan w (cid :: ids) st
         [(t st, Text ("docker inspect " +:+ cid))]
         (emit st [Text ("docker inspect " +:+ cid)])
         (inl (SysExit (fst (docker_inspect w cid))))
| plan_bad_env cid ids st e :
    fst (docker_inspect w cid) = 0 ->
    docker_env_to_dict (snd (docker_inspect w cid)) = inl e ->
    plan w (cid :: ids) st [] st (inl (Uncaught e))
| plan_skip cid ids st added st' r :
    unmanaged w cid ->
    plan w ids (emit st [Warning cid]) added st' r ->
    plan w (cid :: ids) st ((t st, Warning cid) :: added) st' r
| plan_bad_port cid ids st environment service instance port :
    fst (docker_inspect w cid) = 0 ->
    docker_env_to_dict (snd (docker_inspect w cid)) = inr environment ->
    environment !! "PAASTA_SERVICE" = Some service ->
    environment !! "PAASTA_INSTANCE" = Some instance ->
    environment !! "MARATHON_PORT" = Some port ->
    PyStr.int port = None ->
    plan w (cid :: ids) st
         [(t st, Header service instance)]
         (emit st [Header service instance])
         (inl (Uncaught ValueError))
| plan_cycle cid ids st service instance marathon_port added st' r :
    managed w cid service instance marathon_port ->
    plan w ids (after_cycle w cid service instance marathon_port st)
         added st' r ->
    plan w (cid :: ids) st
         (cycle_lines w cid service instance marathon_port st ++ added)
         st' r.

(** The identifiers the second loop goes through when discovery succeeds. *)
Definition discovered (w : world) : list string :=
  shuffle w (map PyStr.rstrip (PyStr.split PyStr.nl (snd (docker_ps w)))).

(** A timeline read as a clock: the stamps start at [t0], stay put across
    every line but a sleep, and move by the (positive) duration of a
    sleep. *)
Fixpoint clock_ok (t0 : Z) (tl : list (Z * line)) : Prop :=
  match tl with
  | [] => True
  | (ts, l) :: rest =>
      ts = t0
      /\ match l with
         | Sleep d => 0 < d /\ clock_ok (t0 + d) rest
         | _ => clock_ok t0 rest
         end
  end.

(** The clock after the timeline [tl], started at [t0]. *)
Fixpoint clock_after (t0 : Z) (tl : list (Z * line)) : Z :=
  match tl with
  | [] => t0
  | (_, Sleep d) :: rest => clock_after (t0 + d) rest
  | _ :: rest => clock_after t0 rest
  end.

Definition is_routing (l : line) : bool :=
  match l with Hadown _ _ _ _ | Haup _ _ _ => true | _ => false end.

(** The stamps of the kills of a timeline, in order. *)
Fixpoint kill_times (tl : list (Z * line)) : list Z :=
  match tl with
  | [] => []
  | (ts, DockerKill _) :: rest => ts :: kill_times rest
  | _ :: rest => kill_times rest
  end.

(** The sleeps that end a cycle (the sleep just before the blank line),
    in order. *)
Fixpoint inter_container_sleeps (tl : list (Z * line)) : list Z :=
  match tl with
  | [] => []
  | (_, Sleep d) :: (((_, Blank) :: _) as rest) =>
      d :: inter_container_sleeps rest
  | _ :: rest => inter_container_sleeps rest
  end.

(** No kill of a container of [(service, instance)] among the lines. *)
Definition no_kill_of (w : world) (service instance : string)
    (tl : list (Z * line)) : Prop :=
  forall ts cid p,
    In (ts, DockerKill cid) tl -> ~ managed w cid service instance p.

(** The cooldown as the specification states it: two consecutive kills of
    containers of one (service, instance) are [min_kill_interval] apart. *)
Definition cooldown_respected (w : world) (tl : list (Z * line)) : Prop :=
  forall pre mid post t1 t2 c1 c2 service instance p1 p2,
    tl = pre ++ (t1, DockerKill c1) :: mid ++ (t2, DockerKill c2) :: post ->
    managed w c1 service instance p1 ->
    managed w c2 service instance p2 ->
    no_kill_of w service instance mid ->
    min_kill_interval <= t2 - t1.

(** An entry of the Env array for the variable [k] with the value [v]. *)
Definition entry (k v : string) : string := k +:+ String PyStr.eq_sign v.

(** [kv] sets the variable [k]. *)
Definition sets (k kv : string) : Prop :=
  exists v, kv = entry k v /\ PyStr.contains PyStr.eq_sign k = false.

(** The last entry of [arr] that sets [k] gives it the value [v]. *)
Definition binds (arr : list string) (k v : string) : Prop :=
  exists before after,
    arr = before ++ entry k v :: after
    /\ PyStr.contains PyStr.eq_sign k = false
    /\ Forall (fun kv => ~ sets k kv) after.

(** ** Example worlds *)

Definition paasta_env : list string :=
  ["PATH=/usr/bin"; "PAASTA_SERVICE=svc"; "PAASTA_INSTANCE=main";
   "MARATHON_PORT=31000"].

(** Two replicas of svc.main and no smartstack file; [flip] is the order
    [random.shuffle] picks. *)
Definition two_replicas (flip : bool) : world :=
  {| docker_ps := (0, "aaaaaaaaaaaa" +:+ String PyStr.nl "bbbbbbbbbbbb");
     shuffle := fun l => if flip then rev l else l;
     docker_inspect := fun _ => (0, paasta_env);
     smartstack_files := fun _ => None |}.

(** An unmanaged container followed by a replica of svc.main. *)
Definition mixed : world :=
  {| docker_ps := (0, "cccccccccccc" +:+ String PyStr.nl "aaaaaaaaaaaa");
     shuffle := fun l => l;
     docker_inspect := fun cid =>
       if String.eqb cid "cccccccccccc" then (0, ["PATH=/usr/bin"; "HOME=/root"])
       else (0, paasta_env);
     smartstack_files := fun _ => None |}.

(** A container started with a variable that has no value (its Env array
    holds the bare name), followed by a replica of svc.main. *)
Definition bare_variable : world :=
  {| docker_ps := (0, "ffffffffffff" +:+ String PyStr.nl "aaaaaaaaaaaa");
     shuffle := fun l => l;
     docker_inspect := fun cid =>
       if String.eqb cid "ffffffffffff" then (0, ["PATH=/usr/bin"; "DEBUG"])
       else (0, paasta_env);
     smartstack_files := fun _ => None |}.

(** The listing command finds nothing. *)
Definition nothing_running : world :=
  {| docker_ps := (0, "");
     shuffle := fun l => l;
     docker_inspect := fun _ => (1, []);
     smartstack_files := fun _ => None |}.

(** ** More vocabulary: what a timeline holds *)

(** The containers killed, in order. *)
Fixpoint killed_ids (tl : list (Z * line)) : list string :=
  match tl with
  | [] => []
  | (_, DockerKill cid) :: rest => cid :: killed_ids rest
  | _ :: rest => killed_ids rest
  end.

(** The containers warned about, in order. *)
Fixpoint warned_ids (tl : list (Z * line)) : list string :=
  match tl with
  | [] => []
  | (_, Warning cid) :: rest => cid :: warned_ids rest
  | _ :: rest => warned_ids rest
  end.

(** The route-in lines as records of the drain history: the time, the
    service and the instance. *)
Fixpoint kill_records (tl : list (Z * line)) : list (Z * string * string) :=
  match tl with
  | [] => []
  | (ts, Haup _ service instance) :: rest =>
      (ts, service, instance) :: kill_records rest
  | _ :: rest => kill_records rest
  end.

(** The durations of the sleeps, in order. *)
Fixpoint sleeps (tl : list (Z * line)) : list Z :=
  match tl with
  | [] => []
  | (_, Sleep d) :: rest => d :: sleeps rest
  | _ :: rest => sleeps rest
  end.

(** The test [not has_all_paasta_env(environment)] of the loop body on the
    container [cid], when its environment decodes. *)
Definition skips (w : world) (cid : string) : bool :=
  match docker_env_to_dict (snd (docker_inspect w cid)) with
  | inr environment => negb (has_all_paasta_env environment)
  | inl _ => false
  end.

(** Each element of the list is at least [d] below the next one. *)
Fixpoint apart (d : Z) (l : list Z) : Prop :=
  match l with
  | a :: ((b :: _) as rest) => a + d <= b /\ apart d rest
  | _ => True
  end.

(** ** The end of cmd *)

(** [sep.join(pieces)] for a one-character [sep]: what [cmd] returns as
    output is ["\n".join(output)]. *)
Fixpoint py_join (sep : ascii) (pieces : list string) : string :=
  match pieces with
  | [] => EmptyString
  | p :: rest =>
      match rest with
      | [] => p
      | _ :: _ => p +:+ String sep (py_join sep rest)
      end
  end.

(** ** paasta_tools/spark_tools.py *)

(** [sub in s] *)
Fixpoint py_occurs (sub s : string) : bool :=
  String.prefix sub s
  || match s with
     | EmptyString => false
     | String _ s' => py_occurs sub s'
     end.

(** [s[n:]] *)
Fixpoint py_drop (n : nat) (s : string) : string :=
  match n, s with
  | O, _ => s
  | S _, EmptyString => EmptyString
  | S n', String _ s' => py_drop n' s'
  end.

(** [s.replace(old, new, 1)]: the leftmost occurrence is replaced. *)
Fixpoint py_replace1 (old new s : string) : string :=
  if String.prefix old s then new +:+ py_drop (String.length old) s
  else match s with
       | EmptyString => EmptyString
       | String c s' => String c (py_replace1 old new s')
       end.

(** The generator of [inject_spark_conf_str] up to its first element. *)
Fixpoint first_injection (base_cmds : list string)
    (original_docker_cmd spark_conf_str : string) : option string :=
  match base_cmds with
  | [] => None
  | base_cmd :: rest =>
      if py_occurs base_cmd original_docker_cmd
      then Some (py_replace1 base_cmd (base_cmd +:+ " " +:+ spark_conf_str)
                             original_docker_cmd)
      else first_injection rest original_docker_cmd spark_conf_str
  end.

Definition spark_base_cmds : list string :=
  ["pyspark"; "spark-shell"; "spark-submit"].

Definition inject_spark_conf_str (original_docker_cmd spark_conf_str : string)
    : string :=
  default original_docker_cmd
          (first_injection spark_base_cmds original_docker_cmd spark_conf_str).

(** ** More example worlds *)

(** The listing prints a line that is no container id. *)
Definition garbled_listing : world :=
  {| docker_ps := (0, "aaaaaaaaaaaa" +:+ String PyStr.nl "Cannot connect");
     shuffle := fun l => l;
     docker_inspect := fun _ => (0, paasta_env);
     smartstack_files := fun _ => None |}.

(** A replica of svc.main, then a container that cannot be inspected, then
    another replica. *)
Definition inspect_fails : world :=
  {| docker_ps :=
       (0, "aaaaaaaaaaaa" +:+ String PyStr.nl
             ("dddddddddddd" +:+ String PyStr.nl "bbbbbbbbbbbb"));
     shuffle := fun l => l;
     docker_inspect := fun cid =>
       if String.eqb cid "dddddddddddd" then (1, []) else (0, paasta_env);
     smartstack_files := fun _ => None |}.

(** A container whose MARATHON_PORT is no number, and one whose Env array
    has an entry without equals sign. *)
Definition broken_env : world :=
  {| docker_ps := (0, "eeeeeeeeeeee" +:+ String PyStr.nl "ffffffffffff");
     shuffle := fun l => l;
     docker_inspect := fun cid =>
       if String.eqb cid "eeeeeeeeeeee"
       then (0, ["PAASTA_SERVICE=svc"; "PAASTA_INSTANCE=main";
                 "MARATHON_PORT=http"])
       else (0, ["PAASTA_SERVICE=svc"; "novalue"]);
     smartstack_files := fun _ => None |}.

(** * Properties *)

(** ** The model on examples *)

Example py_str_examples :
  PyStr.split1 PyStr.eq_sign "A=b=c" = ["A"; "b=c"]
  /\ PyStr.split1 PyStr.eq_sign "plain" = ["plain"]
  /\ PyStr.split PyStr.nl "" = [""]
  /\ PyStr.int " 31_000 " = Some 31000
  /\ PyStr.int "-7" = Some (-7)
  /\ PyStr.int "1__0" = None
  /\ PyStr.int "http" = None
  /\ PyStr.int (String (Ascii.ascii_of_nat 28) "5") = None
  /\ PyStr.int (String (Ascii.ascii_of_nat 160) "5") = Some 5
  /\ PyStr.of_int (-120) = "-120"
  /\ PyStr.of_int 0 = "0"
  /\ PyStr.rstrip "ab  " = "ab".
Proof. repeat split; reflexivity. Qed.

Example py_int_digit_limit :
  PyStr.int (string_of_list_ascii (List.repeat (Ascii.ascii_of_nat 49) 4301))
  = None
  /\ is_Some (PyStr.int (string_of_list_ascii
                           (List.repeat (Ascii.ascii_of_nat 49) 4300))).
Proof.
  split; [vm_compute; reflexivity|].
  destruct (PyStr.int (string_of_list_ascii
                         (List.repeat (Ascii.ascii_of_nat 49) 4300)))
    eqn:Hint; [eauto|].
  vm_compute in Hint. discriminate Hint.
Qed.

Example mixed_stdout :
  stdout (fst (run mixed))
  = [ "# WARNING: cccccccccccc is not a paasta container, skipping)";
      "# svc.main";
      "# aaaaaaaaaaaa,svc,main,None,31000";
      "sudo hadown -P 31000 -e $((`date +'%s'`+120)) svc.main";
      "sleep 10";
      "sudo docker kill aaaaaaaaaaaa";
      "sudo haup -P 31000 svc.main";
      "sleep 10";
      "" ]
  /\ snd (run mixed) = inr tt.
Proof. split; vm_compute; reflexivity. Qed.

(** ** The loop body, case by case *)

Lemma has_all_paasta_env_true (environment : gmap string string) :
  has_all_paasta_env environment = true <->
  is_Some (environment !! "PAASTA_SERVICE")
  /\ is_Some (environment !! "PAASTA_INSTANCE")
  /\ is_Some (environment !! "MARATHON_PORT").
Proof.
  unfold has_all_paasta_env. cbn [forallb].
  rewrite !andb_true_iff, !bool_decide_eq_true. tauto.
Qed.

Lemma has_all_paasta_env_false (environment : gmap string string) :
  has_all_paasta_env environment = false <->
  environment !! "PAASTA_SERVICE" = None
  \/ environment !! "PAASTA_INSTANCE" = None
  \/ environment !! "MARATHON_PORT" = None.
Proof.
  rewrite <- not_true_iff_false, has_all_paasta_env_true.
  rewrite <- !not_eq_None_Some.
  destruct (environment !! "PAASTA_SERVICE"),
           (environment !! "PAASTA_INSTANCE"),
           (environment !! "MARATHON_PORT"); intuition congruence.
Qed.

#[local] Arguments has_all_paasta_env : simpl never.
#[local] Arguments docker_env_to_dict : simpl never.
#[local] Arguments get_last_killed : simpl never.
#[local] Arguments get_proxy_port : simpl never.
#[local] Arguments PyStr.int : simpl never.

(** Unfolds the monad in a goal about a straight-line body. *)
Ltac run_body :=
  unfold bind, condquit, abort, of_sum, of_option, print, advance,
    drained_append, get_t, get_drained_apps, ret, raise, sys_exit;
  cbn.

Lemma drain_managed w cid service instance marathon_port st :
  managed w cid service instance marathon_port ->
  drain w cid st
  = (after_cycle w cid service instance marathon_port st, inr tt).
Proof.
  intros (Hrc & environment & port & Henv & Hs & Hi & Hp & Hint).
  unfold drain. destruct (docker_inspect w cid) as [rc env_array].
  cbn [fst snd] in Hrc, Henv. subst rc.
  assert (Hall : has_all_paasta_env environment = true).
  { apply has_all_paasta_env_true. rewrite Hs, Hi, Hp. eauto. }
  run_body. rewrite Henv. run_body. rewrite Hall. run_body.
  rewrite Hs. run_body. rewrite Hi. run_body. rewrite Hp. run_body.
  rewrite Hint. run_body.
  unfold after_cycle, cycle_lines, cycle_sleep, kill_time.
  repeat rewrite <- app_assoc. reflexivity.
Qed.

Lemma drain_unmanaged w cid st :
  unmanaged w cid ->
  drain w cid st = (emit st [Warning cid], inr tt).
Proof.
  intros (Hrc & environment & Henv & Hall).
  unfold drain. destruct (docker_inspect w cid) as [rc env_array].
  cbn [fst snd] in Hrc, Henv. subst rc.
  run_body. rewrite Henv. run_body. rewrite Hall. reflexivity.
Qed.

Lemma drain_inspect_failed w cid st :
  fst (docker_inspect w cid) <> 0 ->
  drain w cid st
  = (emit st [Text ("docker inspect " +:+ cid)],
     inl (SysExit (fst (docker_inspect w cid)))).
Proof.
  intros Hrc. unfold drain. destruct (docker_inspect w cid) as [rc env_array].
  cbn [fst] in *. apply Z.eqb_neq in Hrc.
  unfold bind at 1. unfold condquit. rewrite Hrc. reflexivity.
Qed.

Lemma drain_bad_env w cid st e :
  fst (docker_inspect w cid) = 0 ->
  docker_env_to_dict (snd (docker_inspect w cid)) = inl e ->
  drain w cid st = (st, inl (Uncaught e)).
Proof.
  intros Hrc Henv. unfold drain.
  destruct (docker_inspect w cid) as [rc env_array].
  cbn [fst snd] in *. subst rc. run_body. rewrite Henv. reflexivity.
Qed.

Lemma drain_bad_port w cid st environment service instance port :
  fst (docker_inspect w cid) = 0 ->
  docker_env_to_dict (snd (docker_inspect w cid)) = inr environment ->
  environment !! "PAASTA_SERVICE" = Some service ->
  environment !! "PAASTA_INSTANCE" = Some instance ->
  environment !! "MARATHON_PORT" = Some port ->
  PyStr.int port = None ->
  drain w cid st
  = (emit st [Header service instance], inl (Uncaught ValueError)).
Proof.
  intros Hrc Henv Hs Hi Hp Hint. unfold drain.
  destruct (docker_inspect w cid) as [rc env_array].
  cbn [fst snd] in *. subst rc.
  assert (Hall : has_all_paasta_env environment = true).
  { apply has_all_paasta_env_true. rewrite Hs, Hi, Hp. eauto. }
  run_body. rewrite Henv. run_body. rewrite Hall. run_body.
  rewrite Hs. run_body. rewrite Hi. run_body. rewrite Hp. run_body.
  rewrite Hint. reflexivity.
Qed.

(** ** The loop follows a plan *)

Lemma for_each_cons {A} (x : A) rest body st :
  for_each (x :: rest) body st
  = match body x st with
    | (st', inr _) => for_each rest body st'
    | (st', inl e) => (st', inl e)
    end.
Proof. reflexivity. Qed.

Lemma for_each_plan w ids :
  forall st, exists added,
    plan w ids st added (for_each ids (drain w) st).1
                        (for_each ids (drain w) st).2.
Proof.
  induction ids as [|cid ids IH]; intros st.
  - exists []. constructor.
  - rewrite for_each_cons.
    destruct (Z.eq_dec (fst (docker_inspect w cid)) 0) as [Hrc|Hrc].
    2:{ rewrite drain_inspect_failed by assumption.
        eexists. apply plan_inspect_failed. assumption. }
    destruct (docker_env_to_dict (snd (docker_inspect w cid)))
      as [e|environment] eqn:Henv.
    { rewrite (drain_bad_env _ _ _ e) by assumption.
      eexists. eapply plan_bad_env; eassumption. }
    destruct (has_all_paasta_env environment) eqn:Hall.
    2:{ assert (Hun : unmanaged w cid) by (split; eauto).
        rewrite drain_unmanaged by assumption.
        destruct (IH (emit st [Warning cid])) as [added Hplan].
        eexists. apply plan_skip; eassumption. }
    apply has_all_paasta_env_true in Hall.
    destruct Hall as ([service Hs] & [instance Hi] & [port Hp]).
    destruct (PyStr.int port) as [marathon_port|] eqn:Hint.
    + assert (Hm : managed w cid service instance marathon_port).
      { split; [assumption|]. exists environment, port. auto. }
      rewrite (drain_managed _ _ _ _ _ _ Hm).
      destruct (IH (after_cycle w cid service instance marathon_port st))
        as [added Hplan].
      eexists. apply plan_cycle; eassumption.
    + rewrite (drain_bad_port _ _ _ _ _ _ _ Hrc Henv Hs Hi Hp Hint).
      eexists. eapply plan_bad_port; eassumption.
Qed.

Lemma plan_timeline w ids st added st' r :
  plan w ids st added st' r -> timeline st' = timeline st ++ added.
Proof.
  induction 1; cbn; try rewrite app_nil_r; try reflexivity.
  - rewrite IHplan. cbn. rewrite <- app_assoc. reflexivity.
  - rewrite IHplan. cbn. rewrite <- app_assoc. reflexivity.
Qed.

(** ** Discovery *)

(** [output.split(...)] never gives the empty list, so the test
    [len(lines) == 0] of [main] never holds. *)
Lemma split_not_nil sep s : PyStr.split sep s <> [].
Proof.
  destruct s as [|c s]; cbn; [discriminate|].
  destruct (Ascii.eqb c sep); [discriminate|].
  destruct (PyStr.split sep s); discriminate.
Qed.

Lemma collect_ids_ok lines :
  forall acc st,
    Forall (fun line => PyStr.len line = 12) lines ->
    collect_ids lines acc st = (st, inr (acc ++ map PyStr.rstrip lines)).
Proof.
  induction lines as [|line lines IH]; intros acc st Hall; cbn.
  - rewrite app_nil_r. reflexivity.
  - inversion Hall as [|? ? Hlen Hrest]; subst.
    unfold bind at 1. rewrite Hlen. cbn.
    rewrite (IH _ _ Hrest), <- app_assoc. reflexivity.
Qed.

Lemma collect_ids_bad lines :
  forall acc st,
    Exists (fun line => PyStr.len line <> 12) lines ->
    exists line,
      In line lines /\ PyStr.len line <> 12
      /\ collect_ids lines acc st
         = (emit st [Text (line +:+ " doesn't look like a container ID")],
            inl (SysExit 1)).
Proof.
  induction lines as [|line lines IH]; intros acc st Hex.
  - inversion Hex.
  - destruct (Z.eq_dec (PyStr.len line) 12) as [Hlen|Hlen].
    + inversion Hex as [? ? Hbad|? ? Hrest]; subst; [contradiction|].
      destruct (IH (acc ++ [PyStr.rstrip line]) st Hrest)
        as (bad & Hin & Hbad & Hrun).
      exists bad. split; [right; assumption|]. split; [assumption|].
      cbn. unfold bind at 1. rewrite Hlen. cbn. exact Hrun.
    + exists line. split; [left; reflexivity|]. split; [assumption|].
      cbn. unfold bind at 1. apply Z.eqb_neq in Hlen. rewrite Hlen.
      reflexivity.
Qed.

Lemma run_listing_failed w :
  fst (docker_ps w) <> 0 ->
  run w = (emit initial [Text "docker ps"], inl (SysExit (fst (docker_ps w)))).
Proof.
  intros Hrc. unfold run, main. destruct (docker_ps w) as [rc output].
  cbn [fst] in *. apply Z.eqb_neq in Hrc.
  unfold bind at 1. unfold condquit. rewrite Hrc. reflexivity.
Qed.

Lemma run_discovered w :
  fst (docker_ps w) = 0 ->
  Forall (fun line => PyStr.len line = 12)
         (PyStr.split PyStr.nl (snd (docker_ps w))) ->
  run w = for_each (discovered w) (drain w) initial.
Proof.
  intros Hrc Hall. unfold run, main, discovered.
  destruct (docker_ps w) as [rc output]. cbn [fst snd] in *. subst rc.
  unfold bind at 1. cbn.
  destruct (PyStr.split PyStr.nl output) as [|l ls] eqn:Hsplit.
  { exfalso. exact (split_not_nil _ _ Hsplit). }
  unfold bind at 1.
  replace (Z.of_nat (length (l :: ls)) =? 0) with false
    by (symmetry; apply Z.eqb_neq; cbn [length]; lia).
  cbn [ret]. unfold bind at 1.
  rewrite (collect_ids_ok _ _ _ Hall). reflexivity.
Qed.

Lemma run_bad_line w :
  fst (docker_ps w) = 0 ->
  Exists (fun line => PyStr.len line <> 12)
         (PyStr.split PyStr.nl (snd (docker_ps w))) ->
  exists line,
    PyStr.len line <> 12
    /\ run w
       = (emit initial [Text (line +:+ " doesn't look like a container ID")],
          inl (SysExit 1)).
Proof.
  intros Hrc Hex. unfold run, main.
  destruct (docker_ps w) as [rc output]. cbn [fst snd] in *. subst rc.
  destruct (collect_ids_bad _ [] initial Hex) as (line & _ & Hlen & Hrun).
  exists line. split; [assumption|].
  unfold bind at 1. cbn.
  destruct (PyStr.split PyStr.nl output) as [|l ls] eqn:Hsplit.
  { exfalso. exact (split_not_nil _ _ Hsplit). }
  unfold bind at 1.
  replace (Z.of_nat (length (l :: ls)) =? 0) with false
    by (symmetry; apply Z.eqb_neq; cbn [length]; lia).
  cbn [ret]. unfold bind at 1. rewrite Hrun. reflexivity.
Qed.

(** Every run stops during discovery or is the loop over the discovered
    containers. *)
Lemma run_cases w :
  (exists message code,
      run w = (emit initial [Text message], inl (SysExit code)))
  \/ run w = for_each (discovered w) (drain w) initial.
Proof.
  destruct (Z.eq_dec (fst (docker_ps w)) 0) as [Hrc|Hrc].
  - destruct (Forall_Exists_dec (fun line => PyStr.len line = 12)
                (fun line => PyStr.len line <> 12)
                (fun line => Z.eq_dec (PyStr.len line) 12)
                (PyStr.split PyStr.nl (snd (docker_ps w)))) as [Hall|Hex].
    + right. apply run_discovered; assumption.
    + left. destruct (run_bad_line w Hrc Hex) as (line & _ & Hrun).
      eauto.
  - left. rewrite run_listing_failed by assumption. eauto.
Qed.

(** ** docker_env_to_dict *)

Lemma split1_found sep s :
  PyStr.contains sep s = true ->
  exists k v,
    PyStr.split1 sep s = [k; v] /\ s = k +:+ String sep v
    /\ PyStr.contains sep k = false.
Proof.
  induction s as [|c s IH]; cbn; [discriminate|].
  destruct (Ascii.eqb c sep) eqn:Hc.
  - intros _. apply Ascii.eqb_eq in Hc. subst c.
    exists EmptyString, s. auto.
  - intros Hs. destruct (IH Hs) as (k & v & Hsplit & -> & Hk).
    exists (String c k), v. rewrite Hsplit. cbn. rewrite Hc. auto.
Qed.

Lemma split1_missing sep s :
  PyStr.contains sep s = false -> PyStr.split1 sep s = [s].
Proof.
  induction s as [|c s IH]; cbn; [reflexivity|].
  destruct (Ascii.eqb c sep); [discriminate|].
  intros Hs. rewrite (IH Hs). reflexivity.
Qed.

Lemma entry_inj k v k' v' :
  PyStr.contains PyStr.eq_sign k = false ->
  PyStr.contains PyStr.eq_sign k' = false ->
  entry k v = entry k' v' -> k = k' /\ v = v'.
Proof.
  unfold entry. revert k'.
  induction k as [|c k IH]; intros [|c' k'] Hk Hk' Heq; cbn in *.
  - injection Heq as ->. auto.
  - injection Heq as <- _. rewrite Ascii.eqb_refl in Hk'. discriminate.
  - injection Heq as -> _. rewrite Ascii.eqb_refl in Hk. discriminate.
  - injection Heq as -> Heq.
    destruct (Ascii.eqb c' PyStr.eq_sign); [discriminate|].
    destruct (IH k' Hk Hk' Heq) as [-> ->]. auto.
Qed.

Lemma binds_cons kv rest k v :
  binds (kv :: rest) k v <->
  binds rest k v
  \/ (kv = entry k v /\ PyStr.contains PyStr.eq_sign k = false
      /\ Forall (fun kv' => ~ sets k kv') rest).
Proof.
  split.
  - intros ([|b before] & after & Heq & Hk & Hafter); cbn in Heq;
      injection Heq as -> ->.
    + right. auto.
    + left. exists before, after. auto.
  - intros [(before & after & -> & Hk & Hafter)|(-> & Hk & Hrest)].
    + exists (kv :: before), after. auto.
    + exists [], rest. auto.
Qed.

Lemma docker_env_loop_spec arr :
  forall acc,
    Forall (fun kv => PyStr.contains PyStr.eq_sign kv = true) arr ->
    exists environment,
      docker_env_loop arr acc = inr environment
      /\ forall k v,
           environment !! k = Some v <->
           binds arr k v
           \/ (Forall (fun kv => ~ sets k kv) arr /\ acc !! k = Some v).
Proof.
  induction arr as [|kv rest IH]; intros acc Hall.
  - exists acc. split; [reflexivity|]. intros k v. split.
    + intros H. right. auto.
    + intros [(before & after & Heq & _)|[_ H]]; [|exact H].
      destruct before; discriminate.
  - inversion Hall as [|? ? Hkv Hrest]; subst.
    destruct (split1_found _ _ Hkv) as (k0 & v0 & Hsplit & Hentry & Hk0).
    destruct (IH (<[k0:=v0]> acc) Hrest) as (environment & Hrun & Hspec).
    exists environment. split.
    { cbn. rewrite Hsplit. cbn. exact Hrun. }
    intros k v. rewrite Hspec, binds_cons, Forall_cons.
    fold (entry k0 v0) in Hentry.
    assert (Hsets : sets k kv <-> k = k0).
    { split.
      - intros (v' & Heq & Hk). rewrite Hentry in Heq.
        destruct (entry_inj _ _ _ _ Hk0 Hk Heq) as [-> _]. reflexivity.
      - intros ->. exists v0. auto. }
    rewrite Hsets. destruct (decide (k = k0)) as [->|Hne].
    + rewrite lookup_insert_eq. split.
      * intros [H|[Hnone Heq]]; [auto|].
        injection Heq as <-. left. right. auto.
      * intros [[H|(Heq & _ & Hnone)]|[[Habs _] _]]; [auto| |congruence].
        right. split; [assumption|]. rewrite Hentry in Heq.
        destruct (entry_inj _ _ _ _ Hk0 Hk0 Heq) as [_ ->]. reflexivity.
    + rewrite lookup_insert_ne by congruence. split.
      * intros [H|[Hnone Hacc]]; [auto|]. right. auto.
      * intros [[H|(Heq & Hk & _)]|[[_ Hnone] Hacc]]; [auto| |auto].
        rewrite Hentry in Heq.
        destruct (entry_inj _ _ _ _ Hk0 Hk Heq) as [-> _]. congruence.
Qed.

Lemma docker_env_loop_fails arr :
  forall acc,
    Exists (fun kv => PyStr.contains PyStr.eq_sign kv = false) arr ->
    docker_env_loop arr acc = inl ValueError.
Proof.
  induction arr as [|kv rest IH]; intros acc Hex; [inversion Hex|].
  cbn. destruct (PyStr.contains PyStr.eq_sign kv) eqn:Hkv.
  - destruct (split1_found _ _ Hkv) as (k0 & v0 & -> & _). cbn.
    apply IH. inversion Hex; subst; [congruence|assumption].
  - rewrite (split1_missing _ _ Hkv). reflexivity.
Qed.

Lemma docker_env_to_dict_lookup (environment_array : list string) :
  Forall (fun kv => PyStr.contains PyStr.eq_sign kv = true)
         environment_array ->
  exists environment,
    docker_env_to_dict environment_array = inr environment
    /\ forall k v,
         environment !! k = Some v <->
         exists before after,
           environment_array = before ++ entry k v :: after
           /\ PyStr.contains PyStr.eq_sign k = false
           /\ Forall (fun kv => forall v', kv <> entry k v') after.
Proof.
  intros Hall.
  destruct (docker_env_loop_spec environment_array ∅ Hall)
    as (environment & Hrun & Hspec).
  exists environment. split; [exact Hrun|].
  intros k v. rewrite Hspec. split.
  - intros [(before & after & Heq & Hk & Hafter)|[_ Habs]].
    + exists before, after. split; [assumption|]. split; [assumption|].
      eapply Forall_impl; [exact Hafter|].
      intros kv Hn v' ->. apply Hn. exists v'. auto.
    + rewrite lookup_empty in Habs. discriminate.
  - intros (before & after & Heq & Hk & Hafter). left.
    exists before, after. split; [assumption|]. split; [assumption|].
    eapply Forall_impl; [exact Hafter|].
    intros kv Hn (v' & -> & _). exact (Hn v' eq_refl).
Qed.

(** C10.  On an array whose entries all contain an equals sign,
    [docker_env_to_dict] returns a dict in which [k] has the value [v]
    exactly when some entry is [k], an equals sign, then [v], with no
    equals sign in [k], and no later entry sets [k]: the value is all that
    follows the first equals sign, and a later entry overrides an earlier
    one.  On an array with an entry without equals sign it raises
    [ValueError]. *)
Theorem C10_docker_env_to_dict (environment_array : list string) :
  (Forall (fun kv => PyStr.contains PyStr.eq_sign kv = true)
          environment_array ->
   exists environment,
     docker_env_to_dict environment_array = inr environment
     /\ forall k v,
          environment !! k = Some v <->
          exists before after,
            environment_array = before ++ entry k v :: after
            /\ PyStr.contains PyStr.eq_sign k = false
            /\ Forall (fun kv => forall v', kv <> entry k v') after)
  /\ (Exists (fun kv => PyStr.contains PyStr.eq_sign kv = false)
             environment_array ->
      docker_env_to_dict environment_array = inl ValueError).
Proof.
  split.
  - apply docker_env_to_dict_lookup.
  - apply docker_env_loop_fails.
Qed.

Lemma C10_witness :
  (exists environment,
      docker_env_to_dict ["A=1"; "B=x=y"; "A=2"] = inr environment
      /\ environment !! "A" = Some "2"
      /\ environment !! "B" = Some "x=y")
  /\ docker_env_to_dict ["A=1"; "B"] = inl ValueError.
Proof.
  split.
  - destruct (proj1 (C10_docker_env_to_dict ["A=1"; "B=x=y"; "A=2"]))
      as (environment & Hrun & Hspec).
    { repeat constructor. }
    exists environment. split; [exact Hrun|]. split.
    + apply Hspec. exists ["A=1"; "B=x=y"], []. repeat split. constructor.
    + apply Hspec. exists ["A=1"], ["A=2"]. repeat split.
      constructor; [|constructor]. intros v'. discriminate.
  - apply (proj2 (C10_docker_env_to_dict ["A=1"; "B"])).
    right. left. reflexivity.
Defined.

(** ** get_last_killed *)

Lemma look_back_skip service instance d l1 l2 :
  Forall (fun r => ~ about service instance r) l1 ->
  look_back (l1 ++ l2) service instance d = look_back l2 service instance d.
Proof.
  induction 1 as [|[[dt ds] di] l1 Hr _ IH]; cbn; [reflexivity|].
  destruct (String.eqb ds service && String.eqb di instance) eqn:Hmatch;
    [|exact IH].
  apply andb_true_iff in Hmatch. destruct Hmatch as [Hs Hi].
  apply String.eqb_eq in Hs, Hi. exfalso. apply Hr. split; assumption.
Qed.

Lemma get_last_killed_recorded before dt service instance after :
  Forall (fun r => ~ about service instance r) after ->
  get_last_killed (before ++ (dt, service, instance) :: after)
                  service instance = dt.
Proof.
  intros Hafter. unfold get_last_killed.
  rewrite rev_app_distr. cbn [rev]. rewrite <- app_assoc.
  rewrite look_back_skip.
  - cbn. rewrite !String.eqb_refl. reflexivity.
  - apply List.Forall_rev. exact Hafter.
Qed.

Lemma get_last_killed_fresh drained service instance :
  Forall (fun r => ~ about service instance r) drained ->
  get_last_killed drained service instance = -1000.
Proof.
  intros Hnone. unfold get_last_killed.
  rewrite <- (app_nil_r (rev drained)). rewrite look_back_skip.
  - reflexivity.
  - apply List.Forall_rev. exact Hnone.
Qed.

(** C4.  [get_last_killed] returns the time of the last record about the
    (service, instance); with no such record it returns -1000, for which
    the cooldown test is false at every time from 0 on, so that the cycle of
    the first container of a (service, instance) ends with the base sleep
    only. *)
Theorem C4_get_last_killed (service instance : string) :
  (forall before dt after,
      Forall (fun r => ~ about service instance r) after ->
      get_last_killed (before ++ (dt, service, instance) :: after)
                      service instance = dt)
  /\ (forall drained now,
         Forall (fun r => ~ about service instance r) drained ->
         0 <= now ->
         get_last_killed drained service instance = -1000
         /\ (now - get_last_killed drained service instance
             <? min_kill_interval) = false)
  /\ (forall w cid marathon_port st,
         managed w cid service instance marathon_port ->
         Forall (fun r => ~ about service instance r) (drained_apps st) ->
         0 <= t st ->
         exists st',
           drain w cid st = (st', inr tt)
           /\ timeline st'
              = timeline st
                ++ [ (t st, Header service instance);
                     (t st, Info cid service instance
                                 (get_proxy_port w service instance)
                                 marathon_port);
                     (t st, Hadown marathon_port hadown_expire_in_seconds
                                   service instance);
                     (t st, Sleep smartstack_grace_sleep);
                     (t st + smartstack_grace_sleep, DockerKill cid);
                     (t st + smartstack_grace_sleep,
                      Haup marathon_port service instance);
                     (t st + smartstack_grace_sleep,
                      Sleep between_containers_grace_sleep);
                     (t st + smartstack_grace_sleep
                      + between_containers_grace_sleep, Blank) ]).
Proof.
  split; [|split].
  - intros before dt after. apply get_last_killed_recorded.
  - intros drained now Hnone Hnow.
    rewrite (get_last_killed_fresh _ _ _ Hnone). split; [reflexivity|].
    apply Z.ltb_ge. unfold min_kill_interval. lia.
  - intros w cid marathon_port st Hm Hnone Hnow.
    eexists. split; [apply drain_managed; exact Hm|].
    cbn [timeline after_cycle]. f_equal.
    unfold cycle_lines, cycle_sleep, kill_time.
    rewrite (get_last_killed_fresh _ _ _ Hnone).
    replace (t st + smartstack_grace_sleep - -1000 <? min_kill_interval)
      with false; [reflexivity|].
    symmetry. apply Z.ltb_ge.
    unfold min_kill_interval, smartstack_grace_sleep. lia.
Qed.

(** C3.  The sleep that ends the cycle of a drained container: with [gap]
    the time of the kill minus the last kill time of its (service,
    instance), looked up in the history as it was before this kill is
    recorded, the sleep is [min_kill_interval - gap +
    between_containers_grace_sleep] when [gap < min_kill_interval] and
    [between_containers_grace_sleep] otherwise. *)
Theorem C3_cooldown_sleep (w : world) (cid service instance : string)
    (marathon_port : Z) (st : state) :
  managed w cid service instance marathon_port ->
  let now := t st + smartstack_grace_sleep in
  let gap := now - get_last_killed (drained_apps st) service instance in
  exists sleep_amount st',
    drain w cid st = (st', inr tt)
    /\ timeline st'
       = timeline st
         ++ [ (t st, Header service instance);
              (t st, Info cid service instance
                          (get_proxy_port w service instance) marathon_port);
              (t st, Hadown marathon_port hadown_expire_in_seconds
                            service instance);
              (t st, Sleep smartstack_grace_sleep);
              (now, DockerKill cid);
              (now, Haup marathon_port service instance);
              (now, Sleep sleep_amount);
              (now + sleep_amount, Blank) ]
    /\ drained_apps st' = drained_apps st ++ [(now, service, instance)]
    /\ t st' = now + sleep_amount
    /\ (gap < min_kill_interval ->
        sleep_amount
        = min_kill_interval - gap + between_containers_grace_sleep)
    /\ (min_kill_interval <= gap ->
        sleep_amount = between_containers_grace_sleep).
Proof.
  intros Hm now gap.
  exists (cycle_sleep st service instance). eexists.
  split; [apply drain_managed; exact Hm|].
  split; [reflexivity|]. split; [reflexivity|]. split; [reflexivity|].
  unfold cycle_sleep, kill_time. fold now. fold gap.
  destruct (Z.ltb_spec gap min_kill_interval); split; intros; lia || reflexivity.
Qed.

(** ** The example worlds *)

Lemma paasta_env_managed w cid :
  docker_inspect w cid = (0, paasta_env) ->
  managed w cid "svc" "main" 31000.
Proof.
  intros Hinspect. unfold managed. rewrite Hinspect. cbn [fst snd].
  split; [reflexivity|].
  destruct (docker_env_to_dict_lookup paasta_env)
    as (environment & Hrun & Hspec).
  { repeat constructor. }
  exists environment, "31000". split; [exact Hrun|].
  split; [|split; [|split]].
  - apply Hspec.
    exists ["PATH=/usr/bin"], ["PAASTA_INSTANCE=main"; "MARATHON_PORT=31000"].
    repeat split. repeat constructor; intros v'; discriminate.
  - apply Hspec.
    exists ["PATH=/usr/bin"; "PAASTA_SERVICE=svc"], ["MARATHON_PORT=31000"].
    repeat split. repeat constructor; intros v'; discriminate.
  - apply Hspec.
    exists ["PATH=/usr/bin"; "PAASTA_SERVICE=svc"; "PAASTA_INSTANCE=main"], [].
    repeat split. constructor.
  - reflexivity.
Qed.

Lemma two_replicas_managed flip cid :
  managed (two_replicas flip) cid "svc" "main" 31000.
Proof. apply paasta_env_managed. reflexivity. Qed.

Lemma C4_witness :
  get_last_killed [(10, "svc", "main"); (30, "svc", "main"); (50, "web", "main")]
                  "svc" "main" = 30
  /\ (get_last_killed [(50, "web", "main")] "svc" "main" = -1000
      /\ (0 - get_last_killed [(50, "web", "main")] "svc" "main"
          <? min_kill_interval) = false)
  /\ exists st',
       drain (two_replicas false) "aaaaaaaaaaaa" initial = (st', inr tt)
       /\ In (10, Sleep between_containers_grace_sleep) (timeline st').
Proof.
  split; [|split].
  - apply (proj1 (C4_get_last_killed "svc" "main")
             [(10, "svc", "main")] 30 [(50, "web", "main")]).
    constructor; [|constructor]. intros [Hs _]. discriminate Hs.
  - apply (proj1 (proj2 (C4_get_last_killed "svc" "main"))
             [(50, "web", "main")] 0); [|lia].
    constructor; [|constructor]. intros [Hs _]. discriminate Hs.
  - destruct (proj2 (proj2 (C4_get_last_killed "svc" "main"))
                (two_replicas false) "aaaaaaaaaaaa" 31000 initial)
      as (st' & Hrun & Htl).
    + apply two_replicas_managed.
    + constructor.
    + cbn. lia.
    + exists st'. split; [exact Hrun|]. rewrite Htl. cbn. tauto.
Defined.

Lemma C3_witness :
  exists sleep_amount st',
    drain (two_replicas false) "bbbbbbbbbbbb"
          {| t := 20; drained_apps := [(10, "svc", "main")]; timeline := [] |}
    = (st', inr tt)
    /\ t st' = 30 + sleep_amount
    /\ sleep_amount = 50.
Proof.
  destruct (C3_cooldown_sleep (two_replicas false) "bbbbbbbbbbbb" "svc" "main"
              31000
              {| t := 20; drained_apps := [(10, "svc", "main")];
                 timeline := [] |}
              (two_replicas_managed false "bbbbbbbbbbbb"))
    as (sleep_amount & st' & Hrun & _ & _ & Ht & Hshort & _).
  exists sleep_amount, st'. split; [exact Hrun|]. split; [exact Ht|].
  rewrite Hshort; vm_compute; reflexivity.
Defined.

(** ** Unmanaged containers *)

(** C6, as the specification states it, fails on a container whose Env
    array is PATH=/usr/bin and the bare name DEBUG: no entry sets
    PAASTA_SERVICE, PAASTA_INSTANCE or MARATHON_PORT, the inspection
    succeeds, and yet no warning is printed and the run does not go on to
    the replica that follows: it stops with an uncaught [ValueError]. *)
Lemma C6_counterexample :
  fst (docker_inspect bare_variable "ffffffffffff") = 0
  /\ (forall k v,
         In k ["PAASTA_SERVICE"; "PAASTA_INSTANCE"; "MARATHON_PORT"] ->
         ~ In (entry k v)
              (snd (docker_inspect bare_variable "ffffffffffff")))
  /\ drain bare_variable "ffffffffffff" initial
     = (initial, inl (Uncaught ValueError))
  /\ run bare_variable = (initial, inl (Uncaught ValueError)).
Proof.
  split; [reflexivity|]. split; [|split; vm_compute; reflexivity].
  intros k v Hk Hin. cbn in Hk.
  destruct Hk as [<-|[<-|[<-|[]]]]; cbv in Hin;
    destruct Hin as [Heq|[Heq|[]]]; discriminate Heq.
Qed.

(** C6, amended.  A container that [docker inspect] reports with code 0
    and an Env array that decodes (every entry holds an equals sign), and
    whose environment lacks PAASTA_SERVICE, PAASTA_INSTANCE or
    MARATHON_PORT, only gets the warning line: no action is printed for
    it, the clock and the drain history stay as they are, and the loop
    goes on with the remaining containers. *)
Theorem C6_unmanaged_skipped (w : world) (cid : string) (rest : list string)
    (st : state) (environment : gmap string string) :
  fst (docker_inspect w cid) = 0 ->
  docker_env_to_dict (snd (docker_inspect w cid)) = inr environment ->
  environment !! "PAASTA_SERVICE" = None
  \/ environment !! "PAASTA_INSTANCE" = None
  \/ environment !! "MARATHON_PORT" = None ->
  let st' := {| t := t st; drained_apps := drained_apps st;
                timeline := timeline st ++ [(t st, Warning cid)] |} in
  drain w cid st = (st', inr tt)
  /\ for_each (cid :: rest) (drain w) st = for_each rest (drain w) st'.
Proof.
  intros Hrc Henv Hlacks st'.
  assert (Hun : unmanaged w cid).
  { split; [assumption|]. exists environment. split; [assumption|].
    apply has_all_paasta_env_false. assumption. }
  assert (Hrun : drain w cid st = (st', inr tt))
    by (apply drain_unmanaged; assumption).
  split; [exact Hrun|]. rewrite for_each_cons, Hrun. reflexivity.
Qed.

Lemma mixed_environment :
  exists environment,
    docker_env_to_dict ["PATH=/usr/bin"; "HOME=/root"] = inr environment
    /\ environment !! "PAASTA_SERVICE" = None.
Proof.
  destruct (docker_env_to_dict_lookup ["PATH=/usr/bin"; "HOME=/root"])
    as (environment & Hrun & Hspec).
  { repeat constructor. }
  exists environment. split; [exact Hrun|].
  destruct (environment !! "PAASTA_SERVICE") as [v|] eqn:Hv; [|reflexivity].
  apply Hspec in Hv. destruct Hv as (before & after & Heq & _).
  exfalso.
  destruct before as [|b0 [|b1 [|b2 before]]]; cbn in Heq;
    discriminate Heq.
Qed.

Lemma C6_witness :
  exists st',
    drain mixed "cccccccccccc" initial = (st', inr tt)
    /\ t st' = 0 /\ drained_apps st' = []
    /\ timeline st' = [(0, Warning "cccccccccccc")]
    /\ for_each ["cccccccccccc"; "aaaaaaaaaaaa"] (drain mixed) initial
       = for_each ["aaaaaaaaaaaa"] (drain mixed) st'.
Proof.
  destruct mixed_environment as (environment & Henv & Hnone).
  destruct (C6_unmanaged_skipped mixed "cccccccccccc" ["aaaaaaaaaaaa"]
              initial environment eq_refl Henv (or_introl Hnone))
    as [Hrun Hloop].
  eexists. split; [exact Hrun|]. split; [reflexivity|].
  split; [reflexivity|]. split; [reflexivity|]. exact Hloop.
Defined.

(** ** Discovery failures *)

Lemma exit_status_nonzero rc :
  rc <> 0 -> -256 < rc < 256 -> exit_status rc <> 0.
Proof.
  unfold exit_status. intros Hrc Hrange Hmod.
  pose proof (Z.div_mod rc 256 ltac:(lia)) as Hdiv. lia.
Qed.

(** C7.  When the listing command returns a code other than 0, or returns
    code 0 and an empty output, the run prints one message and exits with
    a code other than 0 (an exit status other than 0 for the codes a
    command can return): no route-out, kill, route-in or sleep is
    printed. *)
Theorem C7_discovery_failure (w : world) :
  fst (docker_ps w) <> 0 \/ snd (docker_ps w) = "" ->
  exists message code,
    run w = ({| t := 0; drained_apps := [];
                timeline := [(0, Text message)] |}, inl (SysExit code))
    /\ code <> 0
    /\ (-256 < fst (docker_ps w) < 256 -> exit_status code <> 0).
Proof.
  intros Hfail.
  destruct (Z.eq_dec (fst (docker_ps w)) 0) as [Hrc|Hrc].
  - destruct Hfail as [Hne|Hempty]; [contradiction|].
    exists " doesn't look like a container ID", 1.
    split; [|split; [lia|intros _; discriminate]].
    unfold run, main. destruct (docker_ps w) as [rc output].
    cbn [fst snd] in *. subst rc output. reflexivity.
  - exists "docker ps", (fst (docker_ps w)).
    split; [apply run_listing_failed; assumption|].
    split; [assumption|]. apply exit_status_nonzero. assumption.
Qed.

Lemma C7_witness :
  exists message code,
    run nothing_running
    = ({| t := 0; drained_apps := []; timeline := [(0, Text message)] |},
       inl (SysExit code))
    /\ code <> 0.
Proof.
  destruct (C7_discovery_failure nothing_running (or_intror eq_refl))
    as (message & code & Hrun & Hcode & _).
  exists message, code. split; assumption.
Defined.

(** ** The virtual clock *)

Lemma cycle_sleep_lower st service instance :
  between_containers_grace_sleep <= cycle_sleep st service instance.
Proof.
  unfold cycle_sleep.
  destruct (Z.ltb_spec
              (kill_time st
               - get_last_killed (drained_apps st) service instance)
              min_kill_interval); lia.
Qed.

Lemma plan_clock w ids st added st' r :
  plan w ids st added st' r ->
  clock_ok (t st) added /\ t st' = clock_after (t st) added.
Proof.
  induction 1 as [st|cid ids st Hrc|cid ids st e Hrc Henv
                 |cid ids st added st' r Hun Hplan IH
                 |cid ids st environment service instance port
                 |cid ids st service instance marathon_port added st' r
                    Hm Hplan IH].
  - cbn. auto.
  - cbn. auto.
  - cbn. auto.
  - destruct IH as [IHok IHt]. cbn in *. auto.
  - cbn. auto.
  - pose proof (cycle_sleep_lower st service instance) as Hlow.
    unfold between_containers_grace_sleep in Hlow.
    destruct IH as [IHok IHt]. cbn [t after_cycle] in IHok, IHt.
    unfold kill_time in *. cbn.
    repeat split; try reflexivity; try assumption;
      unfold smartstack_grace_sleep; lia.
Qed.

Lemma clock_ok_sorted tl :
  forall t0,
    clock_ok t0 tl ->
    Forall (fun e => t0 <= fst e) tl /\ StronglySorted Z.le (map fst tl).
Proof.
  induction tl as [|[ts l] tl IH]; intros t0 Hok; cbn.
  - split; constructor.
  - destruct Hok as [-> Hok].
    assert (Hrest : exists t1, t0 <= t1 /\ clock_ok t1 tl).
    { destruct l; try (exists t0; split; [lia|exact Hok]).
      destruct Hok as [Hpos Hok]. exists (t0 + seconds). split; [lia|exact Hok]. }
    destruct Hrest as (t1 & Hle & Hok1).
    destruct (IH t1 Hok1) as [Hall Hsorted].
    assert (Hall0 : Forall (fun e => t0 <= fst e) tl).
    { eapply Forall_impl; [exact Hall|]. cbn. intros e He. lia. }
    split.
    + constructor; [cbn; lia|exact Hall0].
    + constructor; [exact Hsorted|].
      apply Forall_fmap. exact Hall0.
Qed.

(** C8.  The timeline of a run reads as a clock started at 0: the value of
    [t] stamped on a line is that of the line before, unless that line is
    a sleep, in which case it is larger by the sleep's duration, which is
    positive; the final [t] is the clock after the whole timeline; the
    stamps never decrease.  The run is a function of the command results
    alone. *)
Theorem C8_virtual_clock (w : world) :
  clock_ok 0 (timeline (fst (run w)))
  /\ t (fst (run w)) = clock_after 0 (timeline (fst (run w)))
  /\ StronglySorted Z.le (map fst (timeline (fst (run w)))).
Proof.
  assert (Hclock : clock_ok 0 (timeline (fst (run w)))
                   /\ t (fst (run w)) = clock_after 0 (timeline (fst (run w)))).
  { destruct (run_cases w) as [(message & code & ->) | ->].
    - cbn. auto.
    - destruct (for_each_plan w (discovered w) initial) as [added Hplan].
      rewrite (plan_timeline _ _ _ _ _ _ Hplan).
      apply plan_clock in Hplan. exact Hplan. }
  destruct Hclock as [Hok Ht]. split; [exact Hok|]. split; [exact Ht|].
  apply (clock_ok_sorted _ 0 Hok).
Qed.

(** ** Route-in after the kill *)

Lemma managed_not_unmanaged w cid service instance marathon_port :
  managed w cid service instance marathon_port -> ~ unmanaged w cid.
Proof.
  intros (_ & environment & port & Henv & Hs & Hi & Hp & _)
         (_ & environment' & Henv' & Hall).
  rewrite Henv in Henv'. injection Henv' as <-.
  apply has_all_paasta_env_false in Hall.
  destruct Hall as [H|[H|H]]; congruence.
Qed.

Lemma plan_kill_followed w ids st added st' r :
  plan w ids st added st' r ->
  forall pre ts cid post,
    added = pre ++ (ts, DockerKill cid) :: post ->
    exists service instance marathon_port post',
      managed w cid service instance marathon_port
      /\ post = (ts, Haup marathon_port service instance) :: post'.
Proof.
  induction 1 as [st|c ids st Hrc|c ids st e Hrc Henv
                 |c ids st added st' r Hun Hplan IH
                 |c ids st environment service instance port
                 |c ids st service instance marathon_port added st' r
                    Hm Hplan IH]; intros pre ts cid post Heq.
  - destruct pre; discriminate Heq.
  - destruct pre as [|? [|? ?]]; discriminate Heq.
  - destruct pre; discriminate Heq.
  - destruct pre as [|e pre]; [discriminate Heq|].
    injection Heq as _ Heq. eapply IH. exact Heq.
  - destruct pre as [|? [|? ?]]; discriminate Heq.
  - unfold cycle_lines in Heq.
    do 8 (destruct pre as [|? pre];
          [simplify_eq/=; eauto 10 | cbn in Heq; injection Heq as _ Heq]).
    eapply IH. exact Heq.
Qed.

Lemma plan_kill_present w ids st added st' r :
  plan w ids st added st' r ->
  r = inr tt ->
  forall cid,
    In cid ids -> ~ unmanaged w cid ->
    exists pre ts service instance marathon_port post,
      managed w cid service instance marathon_port
      /\ added = pre ++ (ts, DockerKill cid)
                 :: (ts, Haup marathon_port service instance) :: post.
Proof.
  induction 1 as [st|c ids st Hrc|c ids st e Hrc Henv
                 |c ids st added st' r Hun Hplan IH
                 |c ids st environment service instance port
                 |c ids st service instance marathon_port added st' r
                    Hm Hplan IH]; intros Hr cid Hin Hnot;
    try discriminate Hr.
  - destruct Hin.
  - destruct Hin as [<-|Hin]; [contradiction|].
    destruct (IH Hr cid Hin Hnot)
      as (pre & ts & s & i & p & post & Hmanaged & ->).
    exists ((t st, Warning c) :: pre), ts, s, i, p, post. auto.
  - destruct Hin as [<-|Hin].
    + eexists (firstn 4 (cycle_lines w c service instance marathon_port st)),
        _, _, _, _, _.
      split; [exact Hm|]. reflexivity.
    + destruct (IH Hr cid Hin Hnot)
        as (pre & ts & s & i & p & post & Hmanaged & ->).
      exists (cycle_lines w c service instance marathon_port st ++ pre),
        ts, s, i, p, post.
      split; [exact Hmanaged|]. rewrite <- app_assoc. reflexivity.
Qed.

(** C9.  In the timeline of every run, the line after the kill of a
    container is the route-in for that container's port, service and
    instance, printed at the same virtual time: nothing, and no sleep,
    comes between them.  When the run reaches its end, every discovered
    container that is not skipped has its kill, followed by its route-in,
    in the timeline. *)
Theorem C9_route_in_after_kill (w : world) :
  (forall pre ts cid post,
      timeline (fst (run w)) = pre ++ (ts, DockerKill cid) :: post ->
      exists service instance marathon_port post',
        managed w cid service instance marathon_port
        /\ post = (ts, Haup marathon_port service instance) :: post')
  /\ (snd (run w) = inr tt ->
      forall cid,
        In cid (discovered w) -> ~ unmanaged w cid ->
        exists pre ts service instance marathon_port post,
          managed w cid service instance marathon_port
          /\ timeline (fst (run w))
             = pre ++ (ts, DockerKill cid)
               :: (ts, Haup marathon_port service instance) :: post).
Proof.
  destruct (run_cases w) as [(message & code & ->) | ->].
  - split.
    + intros pre ts cid post Heq. cbn in Heq.
      destruct pre as [|? [|? ?]]; discriminate Heq.
    + intros Hr. discriminate Hr.
  - destruct (for_each_plan w (discovered w) initial) as [added Hplan].
    rewrite (plan_timeline _ _ _ _ _ _ Hplan). cbn [timeline initial app].
    split.
    + apply (plan_kill_followed _ _ _ _ _ _ Hplan).
    + intros Hr. apply (plan_kill_present _ _ _ _ _ _ Hplan Hr).
Qed.

Lemma C9_witness :
  (exists service instance marathon_port post',
      managed (two_replicas false) "aaaaaaaaaaaa" service instance
              marathon_port
      /\ skipn 5 (timeline (fst (run (two_replicas false))))
         = (10, Haup marathon_port service instance) :: post')
  /\ exists pre ts service instance marathon_port post,
       managed (two_replicas false) "bbbbbbbbbbbb" service instance
               marathon_port
       /\ timeline (fst (run (two_replicas false)))
          = pre ++ (ts, DockerKill "bbbbbbbbbbbb")
            :: (ts, Haup marathon_port service instance) :: post.
Proof.
  split.
  - apply (proj1 (C9_route_in_after_kill (two_replicas false))
             (firstn 4 (timeline (fst (run (two_replicas false)))))
             10 "aaaaaaaaaaaa").
    vm_compute. reflexivity.
  - apply (proj2 (C9_route_in_after_kill (two_replicas false)) eq_refl
             "bbbbbbbbbbbb").
    + right. left. reflexivity.
    + apply (managed_not_unmanaged _ _ _ _ _
               (two_replicas_managed false "bbbbbbbbbbbb")).
Defined.

(** ** Two replicas of one service instance *)

Lemma two_replicas_timeline (flip : bool) :
  let c1 := if flip then "bbbbbbbbbbbb" else "aaaaaaaaaaaa" in
  let c2 := if flip then "aaaaaaaaaaaa" else "bbbbbbbbbbbb" in
  run (two_replicas flip)
  = ({| t := 80;
        drained_apps := [(10, "svc", "main"); (30, "svc", "main")];
        timeline :=
          [ (0, Header "svc" "main");
            (0, Info c1 "svc" "main" PyNone 31000);
            (0, Hadown 31000 120 "svc" "main");
            (0, Sleep 10);
            (10, DockerKill c1);
            (10, Haup 31000 "svc" "main");
            (10, Sleep 10);
            (20, Blank);
            (20, Header "svc" "main");
            (20, Info c2 "svc" "main" PyNone 31000);
            (20, Hadown 31000 120 "svc" "main");
            (20, Sleep 10);
            (30, DockerKill c2);
            (30, Haup 31000 "svc" "main");
            (30, Sleep 50);
            (80, Blank) ] |}, inr tt).
Proof. destruct flip; vm_compute; reflexivity. Qed.

(** C1.  The cooldown fails on two replicas of svc.main, in either order
    of the shuffle: the kills are stamped 10 and 30, which is 20 seconds
    apart, less than [min_kill_interval]. *)
Theorem C1_kills_too_close (flip : bool) :
  kill_times (timeline (fst (run (two_replicas flip)))) = [10; 30]
  /\ ~ cooldown_respected (two_replicas flip)
         (timeline (fst (run (two_replicas flip)))).
Proof.
  rewrite two_replicas_timeline. cbn [fst timeline]. split; [reflexivity|].
  intros Hcool.
  set (c1 := if flip then "bbbbbbbbbbbb" else "aaaaaaaaaaaa") in *.
  set (c2 := if flip then "aaaaaaaaaaaa" else "bbbbbbbbbbbb") in *.
  specialize (Hcool
    [ (0, Header "svc" "main"); (0, Info c1 "svc" "main" PyNone 31000);
      (0, Hadown 31000 120 "svc" "main"); (0, Sleep 10) ]
    [ (10, Haup 31000 "svc" "main"); (10, Sleep 10); (20, Blank);
      (20, Header "svc" "main"); (20, Info c2 "svc" "main" PyNone 31000);
      (20, Hadown 31000 120 "svc" "main"); (20, Sleep 10) ]
    [ (30, Haup 31000 "svc" "main"); (30, Sleep 50); (80, Blank) ]
    10 30 c1 c2 "svc" "main" 31000 31000 eq_refl
    (two_replicas_managed flip c1) (two_replicas_managed flip c2)).
  unfold min_kill_interval in Hcool.
  assert (Hgap : 60 <= 30 - 10); [|lia].
  apply Hcool. intros ts cid p Hin.
  cbn in Hin. repeat (destruct Hin as [Hin|Hin]; [discriminate Hin|]).
  destruct Hin.
Qed.

(** On two replicas of svc.main the first kill is at 10, and the sleep
    that ends the first cycle is not the 70 that C2 asks for. *)
Lemma two_replicas_sleep_not_70 :
  ~ (kill_times (timeline (fst (run (two_replicas false)))) !! 0%nat = Some 10
     /\ inter_container_sleeps (timeline (fst (run (two_replicas false))))
        !! 0%nat = Some 70).
Proof.
  rewrite two_replicas_timeline. cbn. intros [_ Hsleep]. discriminate Hsleep.
Qed.

(** C2.  The code misses what C2 asks for.  With exactly two discovered
    containers, both of one (service, instance), and the history empty at
    the start, the first kill is at virtual time 10, and the sleep between
    the first cycle and the route-out of the second is 10, where 70 is
    asked for: the history is read before the first kill is recorded, so
    the cooldown test of the first cycle does not see that kill.  The
    second kill then comes too early (C1). *)
Theorem C2_two_replicas_first_sleep (w : world) (c1 c2 service instance : string)
    (p1 p2 : Z) :
  fst (docker_ps w) = 0 ->
  Forall (fun line => PyStr.len line = 12)
         (PyStr.split PyStr.nl (snd (docker_ps w))) ->
  discovered w = [c1; c2] ->
  managed w c1 service instance p1 ->
  managed w c2 service instance p2 ->
  exists st,
    run w = (st, inr tt)
    /\ kill_times (timeline st) !! 0%nat = Some 10
    /\ inter_container_sleeps (timeline st) !! 0%nat = Some 10.
Proof.
  intros Hrc Hlines Hids Hm1 Hm2.
  rewrite (run_discovered w Hrc Hlines), Hids.
  rewrite for_each_cons, (drain_managed _ _ _ _ _ _ Hm1).
  rewrite for_each_cons, (drain_managed _ _ _ _ _ _ Hm2).
  eexists. split; [reflexivity|].
  cbn. split; reflexivity.
Qed.

Lemma C2_witness :
  exists st,
    run (two_replicas false) = (st, inr tt)
    /\ kill_times (timeline st) !! 0%nat = Some 10
    /\ inter_container_sleeps (timeline st) !! 0%nat = Some 10.
Proof.
  apply (C2_two_replicas_first_sleep (two_replicas false)
           "aaaaaaaaaaaa" "bbbbbbbbbbbb" "svc" "main" 31000 31000).
  - reflexivity.
  - repeat constructor.
  - reflexivity.
  - apply two_replicas_managed.
  - apply two_replicas_managed.
Defined.

(** ** A container without routing port *)

(** C5, as the specification states it, fails on a replica of svc.main with
    no smartstack file: the lookup gives [None], and the cycle of the
    container still holds the route-out and the route-in. *)
Lemma C5_counterexample :
  get_proxy_port (two_replicas false) "svc" "main" = PyNone
  /\ ~ (forall e,
          In e (timeline (fst (drain (two_replicas false) "aaaaaaaaaaaa"
                                     initial))) ->
          is_routing (snd e) = false).
Proof.
  split; [reflexivity|].
  intros Hnone.
  specialize (Hnone (0, Hadown 31000 120 "svc" "main")).
  rewrite (drain_managed _ _ _ _ _ _
             (two_replicas_managed false "aaaaaaaaaaaa")) in Hnone.
  assert (Habs : is_routing (Hadown 31000 120 "svc" "main") = false).
  { apply Hnone. cbn. right. right. left. reflexivity. }
  discriminate Habs.
Qed.

(** C5, amended.  When the lookup of the routing port finds no entry, the
    cycle of the container is printed in full: the route-out and the
    route-in, both addressed by MARATHON_PORT, the kill and the two sleeps.
    The looked-up port only shows, as [None], in the comment line. *)
Theorem C5_unknown_proxy_port (w : world) (cid service instance : string)
    (marathon_port : Z) (st : state) :
  managed w cid service instance marathon_port ->
  get_proxy_port w service instance = PyNone ->
  exists sleep_amount st',
    drain w cid st = (st', inr tt)
    /\ timeline st'
       = timeline st
         ++ [ (t st, Header service instance);
              (t st, Info cid service instance PyNone marathon_port);
              (t st, Hadown marathon_port hadown_expire_in_seconds
                            service instance);
              (t st, Sleep smartstack_grace_sleep);
              (t st + smartstack_grace_sleep, DockerKill cid);
              (t st + smartstack_grace_sleep,
               Haup marathon_port service instance);
              (t st + smartstack_grace_sleep, Sleep sleep_amount);
              (t st + smartstack_grace_sleep + sleep_amount, Blank) ].
Proof.
  intros Hm Hport.
  exists (cycle_sleep st service instance). eexists.
  split; [apply drain_managed; exact Hm|].
  cbn [timeline after_cycle]. unfold cycle_lines, kill_time.
  rewrite Hport. reflexivity.
Qed.

Lemma C5_witness :
  exists sleep_amount st',
    drain (two_replicas false) "aaaaaaaaaaaa" initial = (st', inr tt)
    /\ In (0, Hadown 31000 120 "svc" "main") (timeline st')
    /\ In (10, DockerKill "aaaaaaaaaaaa") (timeline st')
    /\ In (10, Haup 31000 "svc" "main") (timeline st')
    /\ In (10, Sleep sleep_amount) (timeline st').
Proof.
  destruct (C5_unknown_proxy_port (two_replicas false) "aaaaaaaaaaaa"
              "svc" "main" 31000 initial
              (two_replicas_managed false "aaaaaaaaaaaa") eq_refl)
    as (sleep_amount & st' & Hrun & Htl).
  exists sleep_amount, st'. split; [exact Hrun|].
  rewrite Htl. cbn. tauto.
Defined.

(** * More properties *)

(** ** The environment of a container *)

Lemma split1_entry k v :
  PyStr.contains PyStr.eq_sign k = false ->
  PyStr.split1 PyStr.eq_sign (entry k v) = [k; v].
Proof.
  unfold entry.
  induction k as [|c k IH]; simpl; [reflexivity|].
  destruct (Ascii.eqb c PyStr.eq_sign); [discriminate|].
  intros Hk. rewrite (IH Hk). reflexivity.
Qed.

Lemma docker_env_loop_app a b :
  forall acc,
    docker_env_loop (a ++ b) acc
    = match docker_env_loop a acc with
      | inr environment => docker_env_loop b environment
      | inl e => inl e
      end.
Proof.
  induction a as [|kv a IH]; intros acc; cbn; [reflexivity|].
  destruct (unpack2 (PyStr.split1 PyStr.eq_sign kv)) as [[k v]|];
    [apply IH|reflexivity].
Qed.

Lemma binds_or_unset arr k :
  Forall (fun kv => PyStr.contains PyStr.eq_sign kv = true) arr ->
  (exists v, binds arr k v) \/ Forall (fun kv => ~ sets k kv) arr.
Proof.
  induction 1 as [|kv rest Hkv _ IH]; [right; constructor|].
  destruct IH as [[v Hb]|Hnone].
  - left. exists v. apply binds_cons. left. exact Hb.
  - destruct (split1_found _ _ Hkv) as (k0 & v0 & _ & Hentry & Hk0).
    fold (entry k0 v0) in Hentry.
    destruct (decide (k = k0)) as [->|Hne].
    + left. exists v0. apply binds_cons. right. auto.
    + right. constructor; [|exact Hnone].
      intros (v' & Heq & Hk). rewrite Hentry in Heq.
      destruct (entry_inj _ _ _ _ Hk0 Hk Heq) as [-> _]. congruence.
Qed.

Lemma docker_env_to_dict_is_Some arr environment k :
  Forall (fun kv => PyStr.contains PyStr.eq_sign kv = true) arr ->
  docker_env_to_dict arr = inr environment ->
  PyStr.contains PyStr.eq_sign k = false ->
  is_Some (environment !! k) <-> exists v, In (entry k v) arr.
Proof.
  intros Hall Hrun Hk.
  destruct (docker_env_to_dict_lookup arr Hall) as (e' & Hrun' & Hspec).
  rewrite Hrun in Hrun'. injection Hrun' as <-. split.
  - intros [v Hv]. apply Hspec in Hv.
    destruct Hv as (before & after & -> & _). exists v.
    apply in_or_app. right. left. reflexivity.
  - intros [v Hin].
    destruct (binds_or_unset arr k Hall) as [[v' Hb]|Hnone].
    + exists v'. apply Hspec.
      destruct Hb as (before & after & Heq & Hk' & Hafter).
      exists before, after. split; [assumption|]. split; [assumption|].
      eapply Forall_impl; [exact Hafter|].
      intros kv Hn v'' ->. apply Hn. exists v''. auto.
    + exfalso. rewrite Forall_forall in Hnone.
      apply (Hnone (entry k v)); [apply list_elem_of_In; exact Hin|].
      exists v. auto.
Qed.

(** X1.  For an Env array whose entries all contain an equals sign, the
    container passes [has_all_paasta_env] exactly when the array has an
    entry for each of PAASTA_SERVICE, PAASTA_INSTANCE and MARATHON_PORT. *)
Theorem X1_paasta_env_of_array (environment_array : list string) :
  Forall (fun kv => PyStr.contains PyStr.eq_sign kv = true)
         environment_array ->
  exists environment,
    docker_env_to_dict environment_array = inr environment
    /\ (has_all_paasta_env environment = true <->
        (exists v, In (entry "PAASTA_SERVICE" v) environment_array)
        /\ (exists v, In (entry "PAASTA_INSTANCE" v) environment_array)
        /\ (exists v, In (entry "MARATHON_PORT" v) environment_array)).
Proof.
  intros Hall.
  destruct (docker_env_to_dict_lookup environment_array Hall)
    as (environment & Hrun & _).
  exists environment. split; [exact Hrun|].
  rewrite has_all_paasta_env_true.
  rewrite !(docker_env_to_dict_is_Some _ _ _ Hall Hrun) by reflexivity.
  reflexivity.
Qed.

Lemma X1_witness :
  exists environment,
    docker_env_to_dict paasta_env = inr environment
    /\ has_all_paasta_env environment = true.
Proof.
  destruct (X1_paasta_env_of_array paasta_env) as (environment & Hrun & Hall).
  { repeat constructor. }
  exists environment. split; [exact Hrun|]. apply Hall.
  split; [|split].
  - exists "svc". cbn. tauto.
  - exists "main". cbn. tauto.
  - exists "31000". cbn. tauto.
Defined.

(** X2.  Decoding an array extended by one entry [k=v] (no equals sign in
    [k]) gives the dict of the array with [k] set to [v]: [k] reads [v],
    whatever the array said, and the other variables read as before.  When
    the array does not decode, neither does any extension of it. *)
Theorem X2_docker_env_to_dict_append (environment_array : list string)
    (k v : string) :
  PyStr.contains PyStr.eq_sign k = false ->
  (forall environment,
      docker_env_to_dict environment_array = inr environment ->
      docker_env_to_dict (environment_array ++ [entry k v])
      = inr (<[k:=v]> environment))
  /\ (forall e more,
         docker_env_to_dict environment_array = inl e ->
         docker_env_to_dict (environment_array ++ more) = inl e).
Proof.
  intros Hk. unfold docker_env_to_dict. split.
  - intros environment Hrun. rewrite docker_env_loop_app, Hrun. cbn.
    rewrite (split1_entry _ _ Hk). reflexivity.
  - intros e more Hrun. rewrite docker_env_loop_app, Hrun. reflexivity.
Qed.

Lemma X2_witness :
  (forall environment,
      docker_env_to_dict ["A=1"] = inr environment ->
      docker_env_to_dict (["A=1"] ++ [entry "A" "2"])
      = inr (<["A":="2"]> environment))
  /\ docker_env_to_dict (["A=1"; "B"] ++ ["C=3"]) = inl ValueError.
Proof.
  split.
  - apply (proj1 (X2_docker_env_to_dict_append ["A=1"] "A" "2" eq_refl)).
  - apply (proj2 (X2_docker_env_to_dict_append ["A=1"; "B"] "A" "2" eq_refl)).
    reflexivity.
Defined.

(** ** The drain history *)

Lemma get_last_killed_other drained r service instance :
  ~ about service instance r ->
  get_last_killed (drained ++ [r]) service instance
  = get_last_killed drained service instance.
Proof.
  intros Hr. unfold get_last_killed. rewrite rev_app_distr. cbn [rev app].
  destruct r as [[dt ds] di]. cbn [look_back].
  destruct (String.eqb ds service && String.eqb di instance) eqn:Hmatch;
    [|reflexivity].
  apply andb_true_iff in Hmatch. destruct Hmatch as [Hs Hi].
  apply String.eqb_eq in Hs, Hi. exfalso. apply Hr. split; assumption.
Qed.

Lemma look_back_in l service instance d :
  look_back l service instance d = d
  \/ In (look_back l service instance d, service, instance) l.
Proof.
  induction l as [|[[dt ds] di] l IH]; cbn; [left; reflexivity|].
  destruct (String.eqb ds service && String.eqb di instance) eqn:Hmatch.
  - apply andb_true_iff in Hmatch. destruct Hmatch as [Hs Hi].
    apply String.eqb_eq in Hs, Hi. subst. right. left. reflexivity.
  - destruct IH as [IH|IH]; [left; exact IH|right; right; exact IH].
Qed.

Lemma get_last_killed_in drained service instance :
  get_last_killed drained service instance = -1000
  \/ In (get_last_killed drained service instance, service, instance) drained.
Proof.
  unfold get_last_killed.
  destruct (look_back_in (rev drained) service instance (-1000)) as [H|H];
    [left; exact H|right].
  apply in_rev. exact H.
Qed.

Lemma get_last_killed_bound drained service instance bound :
  -1000 <= bound ->
  Forall (fun r => r.1.1 <= bound) drained ->
  get_last_killed drained service instance <= bound.
Proof.
  intros Hb Hall.
  destruct (get_last_killed_in drained service instance) as [->|Hin];
    [exact Hb|].
  rewrite Forall_forall in Hall.
  apply list_elem_of_In in Hin. exact (Hall _ Hin).
Qed.

(** X3.  Recording a kill of another (service, instance) does not change
    what [get_last_killed] answers for this one. *)
Theorem X3_get_last_killed_other_key
    (drained : list (Z * string * string)) (dt : Z)
    (dservice dinstance service instance : string) :
  dservice <> service \/ dinstance <> instance ->
  get_last_killed (drained ++ [(dt, dservice, dinstance)]) service instance
  = get_last_killed drained service instance.
Proof.
  intros Hother. apply get_last_killed_other.
  intros [Hs Hi]. cbn in Hs, Hi. destruct Hother; contradiction.
Qed.

Lemma X3_witness :
  get_last_killed ([(10, "svc", "main")] ++ [(30, "svc", "canary")])
                  "svc" "main"
  = get_last_killed [(10, "svc", "main")] "svc" "main".
Proof.
  apply X3_get_last_killed_other_key. right. discriminate.
Defined.

(** X4.  What [get_last_killed] returns is -1000 or the time of a record
    of the history about that (service, instance); so it is at most any
    bound, from -1000 up, on the times in the history. *)
Theorem X4_get_last_killed_from_history
    (drained : list (Z * string * string)) (service instance : string)
    (bound : Z) :
  (get_last_killed drained service instance = -1000
   \/ In (get_last_killed drained service instance, service, instance)
         drained)
  /\ (-1000 <= bound ->
      Forall (fun r => r.1.1 <= bound) drained ->
      get_last_killed drained service instance <= bound).
Proof.
  split; [apply get_last_killed_in|apply get_last_killed_bound].
Qed.

Lemma X4_witness :
  get_last_killed [(10, "svc", "main"); (30, "web", "main")] "svc" "main"
  <= 30.
Proof.
  apply (proj2 (X4_get_last_killed_from_history
                  [(10, "svc", "main"); (30, "web", "main")]
                  "svc" "main" 30)).
  - lia.
  - repeat constructor; cbn; lia.
Defined.

(** ** The end of a cycle *)

Lemma cycle_sleep_max st service instance :
  kill_time st + cycle_sleep st service instance
  = Z.max (kill_time st + between_containers_grace_sleep)
          (get_last_killed (drained_apps st) service instance
           + min_kill_interval + between_containers_grace_sleep).
Proof.
  unfold cycle_sleep.
  destruct (Z.ltb_spec
              (kill_time st
               - get_last_killed (drained_apps st) service instance)
              min_kill_interval); lia.
Qed.

(** X5.  The cycle of a drained container ends, on the virtual clock, at
    the later of: the kill plus the base sleep, and the previous kill of
    the same (service, instance) plus [min_kill_interval] plus the base
    sleep.  So the stretched sleep makes the container after this one wait;
    it is not what separates this kill from the previous one. *)
Theorem X5_cycle_end (w : world) (cid service instance : string)
    (marathon_port : Z) (st : state) :
  managed w cid service instance marathon_port ->
  exists st',
    drain w cid st = (st', inr tt)
    /\ t st'
       = Z.max (t st + smartstack_grace_sleep
                + between_containers_grace_sleep)
               (get_last_killed (drained_apps st) service instance
                + min_kill_interval + between_containers_grace_sleep).
Proof.
  intros Hm. eexists. split; [apply drain_managed; exact Hm|].
  cbn [t after_cycle]. apply cycle_sleep_max.
Qed.

Lemma X5_witness :
  exists st',
    drain (two_replicas false) "bbbbbbbbbbbb"
          {| t := 20; drained_apps := [(10, "svc", "main")]; timeline := [] |}
    = (st', inr tt)
    /\ t st' = 80.
Proof.
  destruct (X5_cycle_end (two_replicas false) "bbbbbbbbbbbb" "svc" "main"
              31000
              {| t := 20; drained_apps := [(10, "svc", "main")];
                 timeline := [] |}
              (two_replicas_managed false "bbbbbbbbbbbb"))
    as (st' & Hrun & Ht).
  exists st'. split; [exact Hrun|]. rewrite Ht. vm_compute. reflexivity.
Defined.

(** ** Whole runs *)

(** A run stops during discovery, with one message, or follows the plan of
    the discovered containers. *)
Lemma run_plan w :
  (exists message code,
      run w = (emit initial [Text message], inl (SysExit code))
      /\ code <> 0
      /\ (message = "docker ps"
          \/ exists line,
               message = line +:+ " doesn't look like a container ID"))
  \/ plan w (discovered w) initial (timeline (fst (run w)))
          (fst (run w)) (snd (run w)).
Proof.
  destruct (Z.eq_dec (fst (docker_ps w)) 0) as [Hrc|Hrc].
  - destruct (Forall_Exists_dec (fun line => PyStr.len line = 12)
                (fun line => PyStr.len line <> 12)
                (fun line => Z.eq_dec (PyStr.len line) 12)
                (PyStr.split PyStr.nl (snd (docker_ps w)))) as [Hall|Hex].
    + right. rewrite (run_discovered w Hrc Hall).
      destruct (for_each_plan w (discovered w) initial) as [added Hplan].
      rewrite (plan_timeline _ _ _ _ _ _ Hplan). exact Hplan.
    + left. destruct (run_bad_line w Hrc Hex) as (line & _ & Hrun).
      exists (line +:+ " doesn't look like a container ID"), 1.
      split; [exact Hrun|]. split; [lia|]. right. exists line. reflexivity.
  - left. exists "docker ps", (fst (docker_ps w)).
    split; [apply run_listing_failed; exact Hrc|]. auto.
Qed.

Lemma plan_kills_apart w ids st added st' r :
  plan w ids st added st' r ->
  apart (smartstack_grace_sleep + between_containers_grace_sleep)
        (kill_times added)
  /\ Forall (fun k => t st + smartstack_grace_sleep <= k) (kill_times added).
Proof.
  induction 1 as [st|c ids st Hrc|c ids st e Hrc Henv
                 |c ids st added st' r Hun Hplan IH
                 |c ids st environment service instance port
                 |c ids st service instance marathon_port added st' r
                    Hm Hplan IH];
    try (cbn; split; [exact I|constructor]).
  - exact IH.
  - destruct IH as [IHapart IHlow]. cbn [t after_cycle] in IHlow.
    pose proof (cycle_sleep_lower st service instance) as Hsleep.
    unfold kill_time in *.
    change (kill_times
              (cycle_lines w c service instance marathon_port st ++ added))
      with (t st + smartstack_grace_sleep :: kill_times added).
    split.
    + destruct (kill_times added) as [|b rest]; [exact I|].
      split; [|exact IHapart].
      inversion IHlow as [|? ? Hb _]; subst.
      unfold smartstack_grace_sleep, between_containers_grace_sleep in *.
      lia.
    + constructor; [lia|].
      eapply Forall_impl; [exact IHlow|]. cbn. intros k Hk.
      unfold smartstack_grace_sleep, between_containers_grace_sleep in *.
      lia.
Qed.

(** X6.  In every run, two kills that follow each other, of whatever
    containers, are at least [smartstack_grace_sleep +
    between_containers_grace_sleep] (20) virtual seconds apart, and no
    kill comes before [smartstack_grace_sleep] (10). *)
Theorem X6_kills_apart (w : world) :
  apart (smartstack_grace_sleep + between_containers_grace_sleep)
        (kill_times (timeline (fst (run w))))
  /\ Forall (fun k => smartstack_grace_sleep <= k)
            (kill_times (timeline (fst (run w)))).
Proof.
  destruct (run_plan w) as [(message & code & -> & _)|Hplan].
  - cbn. split; [exact I|constructor].
  - apply plan_kills_apart in Hplan. exact Hplan.
Qed.

Lemma plan_history w ids st added st' r :
  plan w ids st added st' r ->
  drained_apps st' = drained_apps st ++ kill_records added
  /\ map (fun rec => rec.1.1) (kill_records added) = kill_times added.
Proof.
  induction 1 as [st|c ids st Hrc|c ids st e Hrc Henv
                 |c ids st added st' r Hun Hplan IH
                 |c ids st environment service instance port
                 |c ids st service instance marathon_port added st' r
                    Hm Hplan IH];
    try (cbn; rewrite app_nil_r; split; reflexivity).
  - exact IH.
  - destruct IH as [IHd IHk]. cbn [drained_apps after_cycle] in IHd.
    rewrite IHd, <- app_assoc. cbn. rewrite IHk. split; reflexivity.
Qed.

(** X7.  At the end of every run, the drain history is the list of the
    route-in lines of the timeline, each with its time, service and
    instance: one record for each kill, in order, stamped with the time of
    the kill. *)
Theorem X7_history_matches_timeline (w : world) :
  drained_apps (fst (run w)) = kill_records (timeline (fst (run w)))
  /\ map (fun rec => rec.1.1) (drained_apps (fst (run w)))
     = kill_times (timeline (fst (run w))).
Proof.
  destruct (run_plan w) as [(message & code & -> & _)|Hplan].
  - cbn. split; reflexivity.
  - apply plan_history in Hplan. destruct Hplan as [Hd Hk].
    cbn [drained_apps initial app] in Hd. rewrite Hd. split; [reflexivity|].
    exact Hk.
Qed.

Lemma plan_bounds w ids st added st' r :
  plan w ids st added st' r ->
  0 <= t st ->
  Forall (fun rec => rec.1.1 + between_containers_grace_sleep <= t st)
         (drained_apps st) ->
  t st + 20 * Z.of_nat (length (kill_times added)) <= t st'
  /\ t st' <= t st + 60 * Z.of_nat (length (kill_times added))
  /\ Forall (fun d => 10 <= d <= 50) (sleeps added).
Proof.
  induction 1 as [st|c ids st Hrc|c ids st e Hrc Henv
                 |c ids st added st' r Hun Hplan IH
                 |c ids st environment service instance port
                 |c ids st service instance marathon_port added st' r
                    Hm Hplan IH]; intros Ht Hhist;
    try (cbn; repeat split; try lia; constructor).
  - apply IH; assumption.
  - pose proof (cycle_sleep_lower st service instance) as Hlow.
    assert (Hup : cycle_sleep st service instance <= 50).
    { unfold cycle_sleep, kill_time.
      assert (Hlast : get_last_killed (drained_apps st) service instance
                      + between_containers_grace_sleep <= t st).
      { destruct (get_last_killed_in (drained_apps st) service instance)
          as [->|Hin].
        - unfold between_containers_grace_sleep. lia.
        - rewrite Forall_forall in Hhist.
          apply list_elem_of_In in Hin. exact (Hhist _ Hin). }
      unfold between_containers_grace_sleep, smartstack_grace_sleep,
        min_kill_interval in *.
      destruct (Z.ltb_spec
                  (t st + 10
                   - get_last_killed (drained_apps st) service instance) 60);
        lia. }
    unfold between_containers_grace_sleep in Hlow.
    destruct IH as (IHlo & IHhi & IHsl).
    { cbn [t after_cycle]. unfold kill_time, smartstack_grace_sleep. lia. }
    { cbn [t after_cycle drained_apps]. apply Forall_app. split.
      - eapply Forall_impl; [exact Hhist|]. cbn. intros rec Hrec.
        unfold kill_time, smartstack_grace_sleep,
          between_containers_grace_sleep in *. lia.
      - constructor; [|constructor]. cbn.
        unfold between_containers_grace_sleep. lia. }
    cbn [t after_cycle] in IHlo, IHhi.
    change (kill_times
              (cycle_lines w c service instance marathon_port st ++ added))
      with (kill_time st :: kill_times added).
    change (sleeps
              (cycle_lines w c service instance marathon_port st ++ added))
      with (smartstack_grace_sleep :: cycle_sleep st service instance
            :: sleeps added).
    cbn [length]. unfold kill_time, smartstack_grace_sleep in *.
    split; [lia|]. split; [lia|].
    constructor; [lia|]. constructor; [lia|]. exact IHsl.
Qed.

(** X8.  A run that kills n containers takes between 20 n and 60 n virtual
    seconds, and every sleep it prints lasts between 10 and 50 seconds. *)
Theorem X8_run_duration (w : world) :
  let n := Z.of_nat (length (kill_times (timeline (fst (run w))))) in
  20 * n <= t (fst (run w)) <= 60 * n
  /\ Forall (fun d => 10 <= d <= 50) (sleeps (timeline (fst (run w)))).
Proof.
  destruct (run_plan w) as [(message & code & -> & _)|Hplan].
  - cbn. split; [lia|constructor].
  - apply plan_bounds in Hplan; [|cbn; lia|constructor].
    cbn [t initial] in Hplan. cbn zeta. intuition lia.
Qed.

Lemma managed_skips w cid service instance marathon_port :
  managed w cid service instance marathon_port -> skips w cid = false.
Proof.
  intros (_ & environment & port & Henv & Hs & Hi & Hp & _).
  unfold skips. rewrite Henv.
  replace (has_all_paasta_env environment) with true; [reflexivity|].
  symmetry. apply has_all_paasta_env_true. rewrite Hs, Hi, Hp. eauto.
Qed.

Lemma unmanaged_skips w cid : unmanaged w cid -> skips w cid = true.
Proof.
  intros (_ & environment & Henv & Hall).
  unfold skips. rewrite Henv, Hall. reflexivity.
Qed.

Lemma plan_ids w ids st added st' r :
  plan w ids st added st' r ->
  r = inr tt ->
  killed_ids added = List.filter (fun cid => negb (skips w cid)) ids
  /\ warned_ids added = List.filter (skips w) ids.
Proof.
  induction 1 as [st|c ids st Hrc|c ids st e Hrc Henv
                 |c ids st added st' r Hun Hplan IH
                 |c ids st environment service instance port
                 |c ids st service instance marathon_port added st' r
                    Hm Hplan IH]; intros Hr; try discriminate Hr.
  - split; reflexivity.
  - destruct (IH Hr) as [IHk IHw]. cbn.
    rewrite (unmanaged_skips _ _ Hun). cbn. rewrite IHk, IHw.
    split; reflexivity.
  - destruct (IH Hr) as [IHk IHw]. cbn.
    rewrite (managed_skips _ _ _ _ _ Hm). cbn. rewrite IHk, IHw.
    split; reflexivity.
Qed.

Lemma run_finished_plan w :
  snd (run w) = inr tt ->
  plan w (discovered w) initial (timeline (fst (run w))) (fst (run w))
       (inr tt).
Proof.
  intros Hr. destruct (run_plan w) as [(message & code & Hrun & _)|Hplan].
  - rewrite Hrun in Hr. discriminate Hr.
  - rewrite Hr in Hplan. exact Hplan.
Qed.

(** X9.  In a run that reaches its end, the containers killed are, in the
    order of the shuffle, the discovered containers that pass
    [has_all_paasta_env], each killed once for each time it is listed, and
    the containers warned about are the others. *)
Theorem X9_killed_and_warned (w : world) :
  snd (run w) = inr tt ->
  killed_ids (timeline (fst (run w)))
  = List.filter (fun cid => negb (skips w cid)) (discovered w)
  /\ warned_ids (timeline (fst (run w)))
     = List.filter (skips w) (discovered w).
Proof.
  intros Hr. apply (plan_ids _ _ _ _ _ _ (run_finished_plan w Hr)).
  reflexivity.
Qed.

Lemma X9_witness :
  killed_ids (timeline (fst (run mixed))) = ["aaaaaaaaaaaa"]
  /\ warned_ids (timeline (fst (run mixed))) = ["cccccccccccc"].
Proof.
  destruct (X9_killed_and_warned mixed eq_refl) as [Hk Hw].
  rewrite Hk, Hw. split; vm_compute; reflexivity.
Defined.

Lemma filter_split_Permutation {A} (f : A -> bool) (l : list A) :
  Permutation (List.filter (fun x => negb (f x)) l ++ List.filter f l) l.
Proof.
  induction l as [|x l IH]; cbn; [constructor|].
  destruct (f x); cbn.
  - rewrite <- Permutation_middle. constructor. exact IH.
  - constructor. exact IH.
Qed.

(** X10.  When [random.shuffle] permutes the list it is given, a run that
    reaches its end handles every listed container exactly once: the
    containers killed and the containers warned about are, together, a
    permutation of the lines of the listing (stripped on the right). *)
Theorem X10_nothing_dropped (w : world) :
  let listed :=
    map PyStr.rstrip (PyStr.split PyStr.nl (snd (docker_ps w))) in
  snd (run w) = inr tt ->
  Permutation (shuffle w listed) listed ->
  Permutation (killed_ids (timeline (fst (run w)))
               ++ warned_ids (timeline (fst (run w))))
              listed.
Proof.
  intros listed Hr Hperm.
  destruct (plan_ids _ _ _ _ _ _ (run_finished_plan w Hr) eq_refl)
    as [-> ->].
  etransitivity; [apply filter_split_Permutation|exact Hperm].
Qed.

Lemma X10_witness :
  Permutation (killed_ids (timeline (fst (run (two_replicas true))))
               ++ warned_ids (timeline (fst (run (two_replicas true)))))
              ["aaaaaaaaaaaa"; "bbbbbbbbbbbb"].
Proof.
  apply (X10_nothing_dropped (two_replicas true) eq_refl).
  vm_compute. apply perm_swap.
Defined.

(** ** What is printed when the run stops *)

Lemma length_append a b :
  String.length (a +:+ b) = (String.length a + String.length b)%nat.
Proof.
  induction a as [|c a IH]; [reflexivity|].
  change (S (String.length (a +:+ b))
          = S (String.length a + String.length b)).
  rewrite IH. reflexivity.
Qed.

Lemma plan_never_says w ids st added st' r :
  plan w ids st added st' r ->
  forall e, In e added -> render (snd e) <> "no containers running".
Proof.
  induction 1 as [st|c ids st Hrc|c ids st e Hrc Henv
                 |c ids st added st' r Hun Hplan IH
                 |c ids st environment service instance port
                 |c ids st service instance marathon_port added st' r
                    Hm Hplan IH]; intros ln Hin.
  - destruct Hin.
  - destruct Hin as [<-|[]]. cbn. discriminate.
  - destruct Hin.
  - destruct Hin as [<-|Hin]; [cbn; discriminate|]. exact (IH _ Hin).
  - destruct Hin as [<-|[]]. cbn. discriminate.
  - apply in_app_or in Hin. destruct Hin as [Hin|Hin]; [|exact (IH _ Hin)].
    cbn in Hin.
    repeat (destruct Hin as [<-|Hin]; [cbn; discriminate|]).
    destruct Hin.
Qed.

(** X12.  No run prints "no containers running": the test
    [len(lines) == 0] of [main] never holds, since [output.split] gives at
    least one line.  (An empty listing is reported as a line that does not
    look like a container id.) *)
Theorem X12_never_no_containers_running (w : world) :
  Forall (fun printed => printed <> "no containers running")
         (stdout (fst (run w))).
Proof.
  apply List.Forall_forall. intros printed Hin Heq. subst printed.
  unfold stdout in Hin. apply in_map_iff in Hin.
  destruct Hin as (e & Hrender & Hin).
  destruct (run_plan w) as [(message & code & Hrun & _ & Hmsg)|Hplan].
  - rewrite Hrun in Hin. cbn in Hin. destruct Hin as [<-|[]].
    cbn in Hrender. destruct Hmsg as [->|[line ->]]; [discriminate|].
    apply (f_equal String.length) in Hrender.
    rewrite length_append in Hrender. cbn in Hrender. lia.
  - exact (plan_never_says _ _ _ _ _ _ Hplan e Hin Hrender).
Qed.

Lemma collect_ids_first_bad good bad rest :
  forall acc st,
    Forall (fun line => PyStr.len line = 12) good ->
    PyStr.len bad <> 12 ->
    collect_ids (good ++ bad :: rest) acc st
    = (emit st [Text (bad +:+ " doesn't look like a container ID")],
       inl (SysExit 1)).
Proof.
  induction good as [|line good IH]; intros acc st Hgood Hbad.
  - cbn. unfold bind at 1. apply Z.eqb_neq in Hbad. rewrite Hbad.
    reflexivity.
  - inversion Hgood as [|? ? Hlen Hrest]; subst.
    cbn. unfold bind at 1. rewrite Hlen. cbn. apply IH; assumption.
Qed.

(** X13.  When the listing succeeds and one of its lines is not 12
    characters long, the run prints one message, naming the first such
    line, and exits with code 1: no container is inspected and nothing else
    is printed, whatever the other lines are. *)
Theorem X13_bad_listing_line (w : world) (good : list string) (bad : string)
    (rest : list string) :
  fst (docker_ps w) = 0 ->
  PyStr.split PyStr.nl (snd (docker_ps w)) = good ++ bad :: rest ->
  Forall (fun line => PyStr.len line = 12) good ->
  PyStr.len bad <> 12 ->
  run w
  = ({| t := 0; drained_apps := [];
        timeline :=
          [(0, Text (bad +:+ " doesn't look like a container ID"))] |},
     inl (SysExit 1)).
Proof.
  intros Hrc Hsplit Hgood Hbad. unfold run, main.
  destruct (docker_ps w) as [rc output]. cbn [fst snd] in *. subst rc.
  unfold bind at 1. cbn. rewrite Hsplit.
  unfold bind at 1.
  replace (Z.of_nat (length (good ++ bad :: rest)) =? 0) with false.
  2:{ symmetry. apply Z.eqb_neq. rewrite length_app. cbn [length]. lia. }
  cbn [ret]. unfold bind at 1.
  rewrite (collect_ids_first_bad _ _ _ _ _ Hgood Hbad). reflexivity.
Qed.

Lemma X13_witness :
  run garbled_listing
  = ({| t := 0; drained_apps := [];
        timeline :=
          [(0, Text ("Cannot connect"
                     +:+ " doesn't look like a container ID"))] |},
     inl (SysExit 1)).
Proof.
  apply (X13_bad_listing_line garbled_listing ["aaaaaaaaaaaa"]
           "Cannot connect" []).
  - reflexivity.
  - reflexivity.
  - repeat constructor.
  - vm_compute. discriminate.
Defined.

Lemma for_each_app {A} (a b : list A) body :
  forall st,
    for_each (a ++ b) body st
    = match for_each a body st with
      | (st1, inr _) => for_each b body st1
      | (st1, inl e) => (st1, inl e)
      end.
Proof.
  induction a as [|x a IH]; intros st; [reflexivity|].
  cbn [app]. rewrite !for_each_cons.
  destruct (body x st) as [st1 [e|[]]]; [reflexivity|apply IH].
Qed.

(** X14.  When [docker inspect] fails for a container in the middle of the
    loop, the run prints the message "docker inspect <id>" and exits with
    the command's return code: what was printed for the containers before
    it stays, the clock and the history are those reached before it, and
    the containers after it get no line. *)
Theorem X14_inspect_failure (w : world) (before : list string)
    (cid : string) (after : list string) (st st1 : state) :
  for_each before (drain w) st = (st1, inr tt) ->
  fst (docker_inspect w cid) <> 0 ->
  for_each (before ++ cid :: after) (drain w) st
  = ({| t := t st1; drained_apps := drained_apps st1;
        timeline :=
          timeline st1 ++ [(t st1, Text ("docker inspect " +:+ cid))] |},
     inl (SysExit (fst (docker_inspect w cid)))).
Proof.
  intros Hbefore Hrc.
  rewrite for_each_app, Hbefore, for_each_cons.
  rewrite (drain_inspect_failed _ _ _ Hrc). reflexivity.
Qed.

Lemma X14_witness :
  exists st1,
    for_each ["aaaaaaaaaaaa"] (drain inspect_fails) initial = (st1, inr tt)
    /\ run inspect_fails
       = ({| t := t st1; drained_apps := drained_apps st1;
             timeline :=
               timeline st1
               ++ [(t st1, Text ("docker inspect " +:+ "dddddddddddd"))] |},
          inl (SysExit 1)).
Proof.
  eexists. split; [vm_compute; reflexivity|].
  rewrite (run_discovered inspect_fails eq_refl); [|repeat constructor].
  apply (X14_inspect_failure inspect_fails ["aaaaaaaaaaaa"] "dddddddddddd"
           ["bbbbbbbbbbbb"] initial).
  - vm_compute. reflexivity.
  - vm_compute. discriminate.
Defined.

(** X15.  A container whose Env array has an entry without equals sign
    stops the run with an uncaught [ValueError] before anything is printed
    for it, not even a warning. *)
Theorem X15_malformed_env (w : world) (before : list string) (cid : string)
    (after : list string) (st st1 : state) :
  for_each before (drain w) st = (st1, inr tt) ->
  fst (docker_inspect w cid) = 0 ->
  Exists (fun kv => PyStr.contains PyStr.eq_sign kv = false)
         (snd (docker_inspect w cid)) ->
  for_each (before ++ cid :: after) (drain w) st
  = (st1, inl (Uncaught ValueError)).
Proof.
  intros Hbefore Hrc Hbad.
  rewrite for_each_app, Hbefore, for_each_cons.
  rewrite (drain_bad_env _ _ _ ValueError Hrc); [reflexivity|].
  apply docker_env_loop_fails. exact Hbad.
Qed.

Lemma X15_witness :
  for_each ([] ++ "ffffffffffff" :: []) (drain broken_env) initial
  = (initial, inl (Uncaught ValueError)).
Proof.
  apply (X15_malformed_env broken_env [] "ffffffffffff" [] initial initial).
  - reflexivity.
  - reflexivity.
  - right. left. reflexivity.
Defined.

(** X16.  A container that names its service and instance but whose
    MARATHON_PORT [int] refuses stops the run with an uncaught
    [ValueError] after its "# service.instance" line: neither route-out nor
    kill is printed for it, and the clock and the history do not move. *)
Theorem X16_bad_marathon_port (w : world) (before : list string)
    (cid : string) (after : list string) (st st1 : state)
    (environment : gmap string string) (service instance port : string) :
  for_each before (drain w) st = (st1, inr tt) ->
  fst (docker_inspect w cid) = 0 ->
  docker_env_to_dict (snd (docker_inspect w cid)) = inr environment ->
  environment !! "PAASTA_SERVICE" = Some service ->
  environment !! "PAASTA_INSTANCE" = Some instance ->
  environment !! "MARATHON_PORT" = Some port ->
  PyStr.int port = None ->
  for_each (before ++ cid :: after) (drain w) st
  = ({| t := t st1; drained_apps := drained_apps st1;
        timeline := timeline st1 ++ [(t st1, Header service instance)] |},
     inl (Uncaught ValueError)).
Proof.
  intros Hbefore Hrc Henv Hs Hi Hp Hint.
  rewrite for_each_app, Hbefore, for_each_cons.
  rewrite (drain_bad_port _ _ _ _ _ _ _ Hrc Henv Hs Hi Hp Hint).
  reflexivity.
Qed.

Lemma X16_witness :
  run broken_env
  = ({| t := 0; drained_apps := [];
        timeline := [(0, Header "svc" "main")] |},
     inl (Uncaught ValueError)).
Proof.
  rewrite (run_discovered broken_env eq_refl); [|repeat constructor].
  apply (X16_bad_marathon_port broken_env [] "eeeeeeeeeeee" ["ffffffffffff"]
           initial initial
           (<["MARATHON_PORT":="http"]>
              (<["PAASTA_INSTANCE":="main"]>
                 (<["PAASTA_SERVICE":="svc"]> ∅)))
           "svc" "main" "http"); vm_compute; reflexivity.
Defined.

(** ** What cmd returns and main splits *)

Lemma split_no_sep sep p :
  PyStr.contains sep p = false -> PyStr.split sep p = [p].
Proof.
  induction p as [|c p IH]; simpl; [reflexivity|].
  destruct (Ascii.eqb c sep); [discriminate|].
  intros Hp. rewrite (IH Hp). reflexivity.
Qed.

Lemma split_append sep p r :
  PyStr.contains sep p = false ->
  PyStr.split sep (p +:+ String sep r) = p :: PyStr.split sep r.
Proof.
  induction p as [|c p IH]; simpl.
  - intros _. rewrite Ascii.eqb_refl. reflexivity.
  - destruct (Ascii.eqb c sep); [discriminate|].
    intros Hp. rewrite (IH Hp). reflexivity.
Qed.

Lemma py_join_cons sep p q rest :
  py_join sep (p :: q :: rest) = p +:+ String sep (py_join sep (q :: rest)).
Proof. reflexivity. Qed.

Lemma split_join sep pieces :
  pieces <> [] ->
  Forall (fun p => PyStr.contains sep p = false) pieces ->
  PyStr.split sep (py_join sep pieces) = pieces.
Proof.
  induction pieces as [|p [|q rest] IH]; intros Hne Hall.
  - contradiction.
  - inversion Hall; subst. apply split_no_sep. assumption.
  - inversion Hall as [|? ? Hp Hrest]; subst.
    rewrite py_join_cons, (split_append _ _ _ Hp), IH;
      [reflexivity|discriminate|exact Hrest].
Qed.

Lemma join_split sep s : py_join sep (PyStr.split sep s) = s.
Proof.
  induction s as [|c s IH]; [reflexivity|].
  cbn [PyStr.split].
  pose proof (split_not_nil sep s) as Hne.
  destruct (PyStr.split sep s) as [|h tl]; [contradiction|].
  destruct (Ascii.eqb c sep) eqn:Hc.
  - apply Ascii.eqb_eq in Hc. subst c.
    rewrite py_join_cons, IH. reflexivity.
  - destruct tl as [|q rest].
    + cbn [py_join] in *. subst h. reflexivity.
    + rewrite py_join_cons in *. rewrite <- IH. reflexivity.
Qed.

(** X17.  [main] gets back, by [output.split("\n")], the lines that [cmd]
    joined with ["\n".join(output)], when there is at least one line and no
    line holds a newline; when [cmd] read no line at all, [main] gets one
    empty line, not an empty list.  Joining the lines of any output gives
    the output back. *)
Theorem X17_split_of_join (pieces : list string) (s : string) :
  (pieces <> [] ->
   Forall (fun p => PyStr.contains PyStr.nl p = false) pieces ->
   PyStr.split PyStr.nl (py_join PyStr.nl pieces) = pieces)
  /\ PyStr.split PyStr.nl (py_join PyStr.nl []) = [""]
  /\ py_join PyStr.nl (PyStr.split PyStr.nl s) = s.
Proof.
  split; [apply split_join|]. split; [reflexivity|apply join_split].
Qed.

Lemma X17_witness :
  PyStr.split PyStr.nl (py_join PyStr.nl ["aaaaaaaaaaaa"; "bbbbbbbbbbbb"])
  = ["aaaaaaaaaaaa"; "bbbbbbbbbbbb"].
Proof.
  apply (proj1 (X17_split_of_join ["aaaaaaaaaaaa"; "bbbbbbbbbbbb"] "")).
  - discriminate.
  - repeat constructor.
Defined.

(** ** inject_spark_conf_str *)

Lemma append_assoc a b c : (a +:+ b) +:+ c = a +:+ (b +:+ c).
Proof.
  induction a as [|x a IH]; [reflexivity|].
  change (String x ((a +:+ b) +:+ c) = String x (a +:+ (b +:+ c))).
  rewrite IH. reflexivity.
Qed.

Lemma append_cons x a b : String x a +:+ b = String x (a +:+ b).
Proof. reflexivity. Qed.

Lemma prefix_true a s :
  String.prefix a s = true <-> exists post, s = a +:+ post.
Proof.
  revert s. induction a as [|x a IH]; intros s.
  - split; [intros _; exists s; reflexivity|].
    intros _. destruct s; reflexivity.
  - destruct s as [|y s]; simpl.
    + split; [discriminate|]. intros [post Heq].
      rewrite append_cons in Heq. discriminate Heq.
    + destruct (ascii_dec x y) as [->|Hne].
      * rewrite IH. split.
        -- intros [post ->]. exists post. reflexivity.
        -- intros [post Heq]. rewrite append_cons in Heq.
           injection Heq as ->. exists post. reflexivity.
      * split; [discriminate|].
        intros [post Heq]. rewrite append_cons in Heq.
        injection Heq as -> _. contradiction.
Qed.

Lemma py_drop_append a post : py_drop (String.length a) (a +:+ post) = post.
Proof.
  induction a as [|x a IH]; [destruct post; reflexivity|].
  rewrite append_cons. simpl. exact IH.
Qed.

Lemma py_occurs_true sub s :
  py_occurs sub s = true <-> exists pre post, s = pre +:+ sub +:+ post.
Proof.
  induction s as [|c s IH]; cbn [py_occurs];
    rewrite orb_true_iff, prefix_true.
  - split.
    + intros [[post Heq]|Habs]; [|discriminate].
      exists "", post. exact Heq.
    + intros ([|x pre] & post & Heq);
        [|rewrite append_cons in Heq; discriminate Heq].
      left. exists post. exact Heq.
  - rewrite IH. split.
    + intros [[post Heq]|(pre & post & ->)].
      * exists "", post. exact Heq.
      * exists (String c pre), post. reflexivity.
    + intros ([|x pre] & post & Heq).
      * left. exists post. exact Heq.
      * right. rewrite append_cons in Heq. injection Heq as -> ->.
        exists pre, post. reflexivity.
Qed.

Lemma py_replace1_absent old new s :
  py_occurs old s = false -> py_replace1 old new s = s.
Proof.
  induction s as [|c s IH]; cbn [py_occurs py_replace1]; intros Hocc;
    apply orb_false_iff in Hocc; destruct Hocc as [Hpre Hrest];
    rewrite Hpre; [reflexivity|].
  rewrite (IH Hrest). reflexivity.
Qed.

Lemma py_replace1_leftmost old new s :
  py_occurs old s = true ->
  exists pre post,
    s = pre +:+ old +:+ post
    /\ py_replace1 old new s = pre +:+ new +:+ post
    /\ forall pre' post',
         s = pre' +:+ old +:+ post' ->
         (String.length pre <= String.length pre')%nat.
Proof.
  induction s as [|c s IH]; cbn [py_occurs py_replace1]; intros Hocc.
  - rewrite orb_false_r in Hocc. rewrite Hocc.
    apply prefix_true in Hocc. destruct Hocc as [post Heq].
    exists "", post. split; [exact Heq|]. split.
    + rewrite Heq at 1. rewrite py_drop_append. reflexivity.
    + intros. cbn [String.length]. lia.
  - destruct (String.prefix old (String c s)) eqn:Hpre.
    + apply prefix_true in Hpre. destruct Hpre as [post Heq].
      exists "", post. split; [exact Heq|]. split.
      * rewrite Heq at 1. rewrite py_drop_append. reflexivity.
      * intros. cbn [String.length]. lia.
    + cbn [orb] in Hocc.
      destruct (IH Hocc) as (pre & post & -> & Hrep & Hleft).
      exists (String c pre), post. split; [reflexivity|]. split.
      * rewrite Hrep. reflexivity.
      * intros [|x pre'] post' Heq.
        -- exfalso. apply not_true_iff_false in Hpre. apply Hpre.
           apply prefix_true. exists post'. exact Heq.
        -- rewrite !append_cons in Heq. injection Heq as _ Heq.
           cbn [String.length]. specialize (Hleft pre' post' Heq). lia.
Qed.

Lemma first_injection_none base_cmds original conf :
  Forall (fun b => py_occurs b original = false) base_cmds ->
  first_injection base_cmds original conf = None.
Proof.
  induction 1 as [|b rest Hb _ IH]; simpl; [reflexivity|].
  rewrite Hb. exact IH.
Qed.

Lemma first_injection_skip earlier base later original conf :
  Forall (fun b => py_occurs b original = false) earlier ->
  py_occurs base original = true ->
  first_injection (earlier ++ base :: later) original conf
  = Some (py_replace1 base (base +:+ " " +:+ conf) original).
Proof.
  induction 1 as [|b rest Hb _ IH]; simpl; intros Hocc.
  - rewrite Hocc. reflexivity.
  - rewrite Hb. exact (IH Hocc).
Qed.

(** X18.  When none of pyspark, spark-shell and spark-submit occurs in the
    command, [inject_spark_conf_str] returns it unchanged. *)
Theorem X18_inject_nothing_to_do (original_docker_cmd spark_conf_str : string) :
  Forall (fun b => py_occurs b original_docker_cmd = false) spark_base_cmds ->
  inject_spark_conf_str original_docker_cmd spark_conf_str
  = original_docker_cmd.
Proof.
  intros Hnone. unfold inject_spark_conf_str.
  rewrite (first_injection_none _ _ _ Hnone). reflexivity.
Qed.

Lemma X18_witness :
  inject_spark_conf_str "python job.py" "--conf a=b" = "python job.py".
Proof.
  apply X18_inject_nothing_to_do. repeat constructor.
Defined.

(** X19.  Otherwise the configuration string is inserted, after one space,
    behind the leftmost occurrence of the first of pyspark, spark-shell,
    spark-submit (in this order) that occurs in the command; the rest of
    the command is unchanged, so the result is longer by the length of the
    configuration string plus one.  The order of the three names decides,
    not the place in the command: a pyspark anywhere in the command is
    preferred to a spark-submit before it. *)
Theorem X19_inject_after_first_command
    (original_docker_cmd spark_conf_str : string)
    (earlier : list string) (base_cmd : string) (later : list string) :
  spark_base_cmds = earlier ++ base_cmd :: later ->
  Forall (fun b => py_occurs b original_docker_cmd = false) earlier ->
  py_occurs base_cmd original_docker_cmd = true ->
  exists pre post,
    original_docker_cmd = pre +:+ base_cmd +:+ post
    /\ inject_spark_conf_str original_docker_cmd spark_conf_str
       = pre +:+ base_cmd +:+ " " +:+ spark_conf_str +:+ post
    /\ (forall pre' post',
           original_docker_cmd = pre' +:+ base_cmd +:+ post' ->
           (String.length pre <= String.length pre')%nat)
    /\ String.length
         (inject_spark_conf_str original_docker_cmd spark_conf_str)
       = (String.length original_docker_cmd + 1
          + String.length spark_conf_str)%nat.
Proof.
  intros Hcmds Hearlier Hocc. unfold inject_spark_conf_str.
  rewrite Hcmds, (first_injection_skip _ _ _ _ _ Hearlier Hocc). simpl.
  destruct (py_replace1_leftmost base_cmd
              (base_cmd +:+ " " +:+ spark_conf_str)
              original_docker_cmd Hocc) as (pre & post & Heq & Hrep & Hleft).
  exists pre, post. split; [exact Heq|].
  assert (Hres : py_replace1 base_cmd (base_cmd +:+ " " +:+ spark_conf_str)
                             original_docker_cmd
                 = pre +:+ base_cmd +:+ " " +:+ spark_conf_str +:+ post).
  { rewrite Hrep, !append_assoc. reflexivity. }
  split; [exact Hres|]. split; [exact Hleft|].
  rewrite Hres, Heq, !length_append. simpl. lia.
Qed.

Lemma X19_witness :
  exists pre post,
    "spark-submit pyspark_job.py" = pre +:+ "pyspark" +:+ post
    /\ inject_spark_conf_str "spark-submit pyspark_job.py" "--conf a=b"
       = pre +:+ "pyspark" +:+ " " +:+ "--conf a=b" +:+ post.
Proof.
  destruct (X19_inject_after_first_command "spark-submit pyspark_job.py"
              "--conf a=b" [] "pyspark" ["spark-shell"; "spark-submit"]
              eq_refl (List.Forall_nil _) eq_refl)
    as (pre & post & Heq & Hres & _).
  exists pre, post. split; assumption.
Defined.

Example inject_spark_conf_str_examples :
  inject_spark_conf_str "spark-submit job.py" "--conf a=b"
  = "spark-submit --conf a=b job.py"
  /\ inject_spark_conf_str "spark-submit pyspark_job.py" "--conf a=b"
     = "spark-submit pyspark --conf a=b_job.py"
  /\ inject_spark_conf_str "pyspark; pyspark" "-v" = "pyspark -v; pyspark".
Proof. repeat split; reflexivity. Qed.
